(** * uefi-ntfs: a shallow embedding of [efi_main] and [UnloadDriver] (src/boot.c)

    The firmware is modelled as a [platform] record: each boot-service call
    made by [efi_main] is answered by one field of the record.  A call made
    at a given site is made at most once per run, except the volume open of
    the retry loop, whose answer is indexed by the try number; so an
    arbitrary function per call site covers every firmware behaviour.

    The program threads one status ([Status]) through a pipeline and leaves
    it with [goto out]; this is modelled by a writer monad that also records
    the visible effects (console lines, image loads/starts/unloads, volume
    opens, stalls) as a trace of [event]s. *)

From Stdlib Require Import ZArith List String Ascii Bool Lia.
Import ListNotations.
Open Scope Z_scope.

(** ** EFI_STATUS (UINTN, 64-bit) *)

Definition status := Z.

Definition MAX_BIT : Z := 2 ^ 63.
Definition EFIERR (a : Z) : status := Z.lor MAX_BIT a.
Definition EFI_ERROR (s : status) : bool := Z.testbit s 63.

Definition EFI_SUCCESS : status := 0.
Definition EFI_LOAD_ERROR : status := EFIERR 1.
Definition EFI_INVALID_PARAMETER : status := EFIERR 2.
Definition EFI_UNSUPPORTED : status := EFIERR 3.
Definition EFI_DEVICE_ERROR : status := EFIERR 7.
Definition EFI_NOT_FOUND : status := EFIERR 14.
Definition EFI_ACCESS_DENIED : status := EFIERR 15.
Definition EFI_NO_MAPPING : status := EFIERR 17.
Definition EFI_SECURITY_VIOLATION : status := EFIERR 26.

(** EFI_MEMORY_TYPE value of [EfiBootServicesCode]. *)
Definition EfiBootServicesCode : Z := 3.

(** ** Data *)

Definition handle := nat.
Definition byte := ascii.

Definition bytes_eqb (a b : list byte) : bool :=
  if list_eq_dec ascii_dec a b then true else false.

(** A device path is a sequence of nodes, each node its raw bytes. *)
Definition dp_node := list byte.
Definition devpath := list dp_node.

(** Modelled from the spec: [CompareDevicePaths] (not in src/; declared in
    boot.h).  The spec: "path equality is a byte-for-byte structural
    comparison, not a semantic one"; 0 means equal. *)
Definition CompareDevicePaths (a b : devpath) : Z :=
  if list_eq_dec (list_eq_dec ascii_dec) a b then 0 else 1.

(** Modelled from the spec: [GetParentDevice] (not in src/).  The spec:
    "derive the parent by structurally truncating the last device-path node". *)
Definition GetParentDevice (dp : devpath) : devpath := removelast dp.

(** Build configuration: [_DEBUG] and the retry constants of boot.h. *)
Record config := {
  _DEBUG : bool;
  NUM_RETRIES : nat;
  DELAY : nat
}.

(** Answers of the firmware, one field per call site of [efi_main]. *)
Record platform := {
  (* GetSecureBootStatus(): 0 Disabled, > 0 Enabled, < 0 Setup *)
  SecureBootStatus : Z;
  (* OpenProtocol(MainImageHandle, LoadedImage, GET_PROTOCOL) *)
  open_main_loaded_image : status;
  (* LoadedImage->DeviceHandle *)
  boot_device_handle : handle;
  (* DevicePathFromHandle(h) *)
  device_path : handle -> devpath;
  (* LocateHandleBuffer(ByProtocol, DiskIo): status, Handles[0..HandleCount) *)
  locate_disk_io : status * list handle;
  (* OpenProtocol(h, BlockIo, GET_PROTOCOL) *)
  open_block_io : handle -> status;
  (* AllocatePool(BlockIo->Media->BlockSize) != NULL *)
  allocate_block : handle -> bool;
  (* ReadBlocks(BlockIo, MediaId, 0, BlockSize, Buffer): status, Buffer *)
  read_block0 : handle -> status * list byte;
  (* OpenProtocol(h, SimpleFileSystem, TEST_PROTOCOL) *)
  test_sfs : handle -> status;
  (* OpenProtocolInformation(h, DiskIo): status, OpenInfo[i].AgentHandle *)
  open_protocol_information : handle -> status * list handle;
  (* OpenProtocol(AgentHandle, DriverBinding): status, DriverBinding->ImageHandle *)
  open_driver_binding : handle -> status * handle;
  (* UnloadImage(ImageHandle) *)
  unload_image : handle -> status;
  (* FileDevicePath(LoadedImage->DeviceHandle, DriverPath) != NULL *)
  driver_file_path : bool;
  (* LoadImage(DriverPath): status, ImageHandle *)
  load_driver_image : status * handle;
  (* OpenProtocol(ImageHandle, LoadedImage) on the driver image *)
  open_driver_loaded_image : handle -> status;
  (* LoadedImage->ImageCodeType of the driver image *)
  driver_code_type : handle -> Z;
  (* StartImage(ImageHandle) on the driver image *)
  start_driver_image : handle -> status;
  (* ConnectController(Handles[Index], {ImageHandle, NULL}, NULL, TRUE) *)
  connect_controller : handle -> handle -> status;
  (* OpenProtocol(Handles[Index], SimpleFileSystem, BY_HANDLE) at try Try *)
  open_sfs : handle -> nat -> status;
  (* Volume->OpenVolume(Volume, &Root): status, Root != NULL *)
  open_volume : handle -> status * bool;
  (* SetPathCase(Root, LoaderPath) *)
  set_path_case : handle -> status;
  (* FileDevicePath(Handles[Index], LoaderPath) != NULL *)
  loader_file_path : handle -> bool;
  (* LoadImage(LoaderPath): status, ImageHandle *)
  load_loader_image : handle -> status * handle;
  (* OpenProtocol(ImageHandle, LoadedImage) on the next-stage image *)
  open_loader_loaded_image : handle -> status;
  (* ImageBase[0 .. ImageSize) of the next-stage image *)
  loader_image : handle -> list byte;
  (* StartImage(ImageHandle) on the next-stage image *)
  start_loader_image : handle -> status
}.

(** ** Filesystem signature *)

Definition FsMagic : list (list byte) :=
  [list_ascii_of_string "NTFS    "; list_ascii_of_string "EXFAT   "].

(** [for (FsType = 0; FsType < 2 && CompareMem(&Buffer[3], FsMagic[FsType], 8) != 0; FsType++);]
    A buffer shorter than 11 bytes gives a short window, which matches nothing. *)
Fixpoint fs_scan (window : list byte) (magics : list (list byte)) : nat :=
  match magics with
  | [] => 0
  | m :: ms => if bytes_eqb window m then 0 else S (fs_scan window ms)
  end.

Definition fs_window (Buffer : list byte) : list byte := firstn 8 (skipn 3 Buffer).

Definition fs_type (Buffer : list byte) : nat := fs_scan (fs_window Buffer) FsMagic.

(** ** Target selection: the [for (Index = 0; Index < HandleCount; Index++)] loop.
    Returns [Some (Index, Handles[Index], FsType)] on [break], [None] when
    the loop runs to [Index >= HandleCount]. *)
Fixpoint find_target (cfg : config) (p : platform)
    (BootPartitionPath BootDiskPath : devpath) (Handles : list handle)
    (Index : nat) : option (nat * handle * nat) :=
  match Handles with
  | [] => None
  | h :: rest =>
      let continue := find_target cfg p BootPartitionPath BootDiskPath rest (S Index) in
      let DevicePath := device_path p h in
      if CompareDevicePaths DevicePath BootPartitionPath =? 0 then continue else
      let ParentDevicePath := GetParentDevice DevicePath in
      let SameDevice := CompareDevicePaths BootDiskPath ParentDevicePath =? 0 in
      if negb (_DEBUG cfg) && negb SameDevice then continue else
      if EFI_ERROR (open_block_io p h) then continue else
      if negb (allocate_block p h) then continue else
      let '(st, Buffer) := read_block0 p h in
      let FsType := fs_type Buffer in
      if EFI_ERROR st then continue else
      if (FsType <? 2)%nat then Some (Index, h, FsType) else continue
  end.

(** ** Effects: console lines and firmware calls, and [goto out] *)

Inductive level := Info | Warning | Error | FailLine.
Inductive image_kind := DriverImage | LoaderImage.

Inductive event :=
| Ev_Print (lvl : level) (fmt : string)
| Ev_UnloadImage (img : handle) (st : status)
| Ev_LoadImage (k : image_kind) (st : status)
| Ev_StartImage (k : image_kind) (st : status)
| Ev_ConnectController (h : handle) (st : status)
| Ev_OpenVolumeProtocol (h : handle) (try : nat) (st : status)
| Ev_Stall (us : Z)
| Ev_WaitForKey.

(** [Out s]: control reached the [out:] label with [Status = s]. *)
Inductive flow (A : Type) := Next (a : A) | Out (s : status).
Arguments Next {A} a.
Arguments Out {A} s.

Definition M (A : Type) : Type := (flow A * list event)%type.

Definition ret {A} (a : A) : M A := (Next a, []).
Definition goto_out {A} (s : status) : M A := (Out s, []).
Definition emit (e : event) : M unit := (Next tt, [e]).

Definition bind {A B} (m : M A) (f : A -> M B) : M B :=
  match m with
  | (Next a, t1) => let '(r, t2) := f a in (r, t1 ++ t2)
  | (Out s, t1) => (Out s, t1)
  end.

Notation "x <- c1 ;; c2" := (bind c1 (fun x => c2))
  (at level 61, c1 at next level, right associativity).
Notation "c1 ;; c2" := (bind c1 (fun _ : unit => c2))
  (at level 61, right associativity).

Definition PrintInfo (s : string) : M unit := emit (Ev_Print Info s).
Definition PrintWarning (s : string) : M unit := emit (Ev_Print Warning s).
Definition PrintError (s : string) : M unit := emit (Ev_Print Error s).

(** ** [UnloadDriver] (boot.c, lines 151-187) *)

Fixpoint unload_openers (p : platform) (OpenInfo : list handle) : M status :=
  match OpenInfo with
  | [] => ret EFI_NOT_FOUND
  | agent :: rest =>
      let '(st, ImageHandle) := open_driver_binding p agent in
      if EFI_ERROR st then unload_openers p rest else
      PrintWarning "Unloading existing '%s v0x%x'";;
      let st := unload_image p ImageHandle in
      emit (Ev_UnloadImage ImageHandle st);;
      if EFI_ERROR st then
        (PrintWarning "  Could not unload driver: %r";; unload_openers p rest)
      else ret EFI_SUCCESS
  end.

Definition UnloadDriver (p : platform) (FileSystemHandle : handle) : M status :=
  let '(st, OpenInfo) := open_protocol_information p FileSystemHandle in
  if EFI_ERROR st then ret EFI_NOT_FOUND else unload_openers p OpenInfo.

(** ** [efi_main] (boot.c, lines 239-557), stage by stage *)

(** LoadImage failure translation, written identically at lines 402 and 506. *)
Definition load_error_status (SecureBootStatus st : Z) : status :=
  if (st =? EFI_ACCESS_DENIED) && (1 <=? SecureBootStatus) then EFI_SECURITY_VIOLATION
  else st.

(** Lines 382-440: load, check and start the companion driver, then connect it. *)
Definition start_companion (p : platform) (h : handle) : M unit :=
  PrintInfo "Starting %s driver service:";;
  if negb (driver_file_path p) then
    (PrintError "  Unable to set path for '%s'";; goto_out EFI_DEVICE_ERROR) else
  let '(st, ImageHandle) := load_driver_image p in
  emit (Ev_LoadImage DriverImage st);;
  if EFI_ERROR st then
    (PrintError "  Unable to load driver '%s'";;
     goto_out (load_error_status (SecureBootStatus p) st)) else
  let st := open_driver_loaded_image p ImageHandle in
  if EFI_ERROR st then (PrintError "  Unable to access driver interface";; goto_out st) else
  if negb (driver_code_type p ImageHandle =? EfiBootServicesCode) then
    (PrintError "  '%s' is not a Boot System Driver";; goto_out EFI_LOAD_ERROR) else
  let st := start_driver_image p ImageHandle in
  emit (Ev_StartImage DriverImage st);;
  if EFI_ERROR st then (PrintError "  Unable to start driver";; goto_out st) else
  PrintInfo "  %s";;
  let st := connect_controller p h ImageHandle in
  emit (Ev_ConnectController h st);;
  if EFI_ERROR st then (PrintError "  Could not start %s partition service";; goto_out st)
  else ret tt.

(** Lines 360-440: test for an existing file system service, unload it, and
    start ours if the partition is not (or no longer) serviced. *)
Definition ensure_service (p : platform) (h : handle) : M unit :=
  let Status := test_sfs p h in
  if negb (Status =? EFI_SUCCESS) && negb (Status =? EFI_UNSUPPORTED) then
    (PrintError "Could not check for %s service";; goto_out Status) else
  Status <- (if Status =? EFI_SUCCESS then
               u <- UnloadDriver p h;;
               ret (if u =? EFI_SUCCESS then EFI_UNSUPPORTED else Status)
             else ret Status);;
  if Status =? EFI_UNSUPPORTED then start_companion p h else ret tt.

(** Lines 449-459: [for (Try = 0; ; Try++)]; [left] is [NUM_RETRIES - Try],
    so [left = 0] is the test [Try >= NUM_RETRIES]. *)
Fixpoint open_retry (cfg : config) (p : platform) (h : handle) (Try left : nat) : M unit :=
  let Status := open_sfs p h Try in
  emit (Ev_OpenVolumeProtocol h Try Status);;
  if negb (EFI_ERROR Status) then ret tt else
  PrintError "  Could not open partition";;
  match left with
  | O => goto_out Status
  | S left' =>
      PrintWarning "  Waiting %d seconds before retrying...";;
      emit (Ev_Stall (Z.of_nat (DELAY cfg) * 1000000));;
      open_retry cfg p h (S Try) left'
  end.

(** "bootmgr.dll" with its terminating NUL: [sizeof(BootMgrName)] is 12. *)
Definition BootMgrName : list byte := list_ascii_of_string "bootmgr.dll" ++ [zero].

(** Lines 518-525: [for (Index = 0x40; Index < ImageSize - sizeof(BootMgrName); Index++)],
    [mem] being the image from [Index] on.  The bound is a UINT64 difference.
    Memory past the end of the image is not modelled: a comparison running
    past it is a mismatch, and the scan stops there. *)
Fixpoint find_bootmgr (mem : list byte) (Index bound : Z) : bool :=
  match mem with
  | [] => false
  | _ :: rest =>
      if Index <? bound then
        if bytes_eqb (firstn 12 mem) BootMgrName then true
        else find_bootmgr rest (Index + 1) bound
      else false
  end.

Definition scan_bound (ImageSize : Z) : Z := (ImageSize - 12) mod 2 ^ 64.

Definition is_windows_bootmgr (Image : list byte) : bool :=
  find_bootmgr (skipn 64 Image) 64 (scan_bound (Z.of_nat (List.length Image))).

(** Lines 512-540: inspect the loaded next-stage image, then start it. *)
Definition inspect_and_start (p : platform) (ImageHandle : handle) : M status :=
  WindowsBootMgr <-
    (let st := open_loader_loaded_image p ImageHandle in
     if EFI_ERROR st then (PrintWarning "  Unable to inspect loaded executable";; ret false)
     else if is_windows_bootmgr (loader_image p ImageHandle) then
       (PrintInfo "Starting Microsoft Windows bootmgr...";; ret true)
     else ret false);;
  let Status := start_loader_image p ImageHandle in
  emit (Ev_StartImage LoaderImage Status);;
  if EFI_ERROR Status then
    ((if (Status =? EFI_NO_MAPPING) && WindowsBootMgr then
        emit (Ev_Print FailLine "   Windows bootmgr encountered a security validation or internal error")
      else PrintError "  Start failure");;
     ret Status)
  else ret Status.

(** Lines 461-540: open the root directory, fix the loader path's case,
    load the next-stage image and start it.  The volume label query
    (lines 469-483) only prints and its status is overwritten: not modelled. *)
Definition chain_load (p : platform) (h : handle) : M status :=
  let '(st, RootOk) := open_volume p h in
  if EFI_ERROR st || negb RootOk then
    (PrintError "  Could not open Root directory";; goto_out st) else
  let st := set_path_case p h in
  if EFI_ERROR st then (PrintError "  Could not locate '%s'";; goto_out st) else
  PrintInfo "Launching '%s'...";;
  if negb (loader_file_path p h) then
    (PrintError "  Could not create path";; goto_out EFI_DEVICE_ERROR) else
  let '(st, ImageHandle) := load_loader_image p h in
  emit (Ev_LoadImage LoaderImage st);;
  if EFI_ERROR st then
    (PrintError "  Load failure";; goto_out (load_error_status (SecureBootStatus p) st)) else
  inspect_and_start p ImageHandle.

(** Lines 286-540.  [DisconnectBlockingDrivers] returns nothing and does not
    touch [Status]; its effect on the firmware is part of the [platform]'s
    later answers. *)
Definition efi_main_body (cfg : config) (p : platform) : M status :=
  let st := open_main_loaded_image p in
  if EFI_ERROR st then (PrintError "Unable to access boot image interface";; goto_out st) else
  PrintInfo "Disconnecting potentially blocking drivers";;
  let BootPartitionPath := device_path p (boot_device_handle p) in
  let BootDiskPath := GetParentDevice BootPartitionPath in
  PrintInfo "Searching for target partition on boot disk:";;
  let '(st, Handles) := locate_disk_io p in
  if EFI_ERROR st then (PrintError "  Failed to list disks";; goto_out st) else
  match find_target cfg p BootPartitionPath BootDiskPath Handles 0 with
  | None => PrintError "  Could not locate target partition";; goto_out EFI_NOT_FOUND
  | Some (_, h, _) =>
      PrintInfo "Found %s target partition:";;
      ensure_service p h;;
      PrintInfo "Opening target %s partition:";;
      open_retry cfg p h 0 (NUM_RETRIES cfg);;
      chain_load p h
  end.

Definition flow_status (r : flow status) : status :=
  match r with Next s => s | Out s => s end.

(** Lines 542-556: the [out:] label. *)
Definition efi_main (cfg : config) (p : platform) : status * list event :=
  let '(r, tr) := efi_main_body cfg p in
  let Status := flow_status r in
  if EFI_ERROR Status then
    (Status, tr ++ [Ev_Print Warning "Press any key to exit."; Ev_WaitForKey])
  else (Status, tr).

(** ** A small concrete firmware, for evaluation

    Handle 1 is the boot partition (node "p1" of disk "disk0"), handle 2 the
    NTFS partition "p2" of the same disk, handle 3 an NTFS partition of
    another disk; [disks] is the enumeration order.  The parameters choose
    the answers the examples vary. *)

Definition node (s : string) : dp_node := list_ascii_of_string s.

Definition demo_path (h : handle) : devpath :=
  match h with
  | 1%nat => [node "disk0"; node "p1"]
  | 2%nat => [node "disk0"; node "p2"]
  | _ => [node "disk1"; node "p1"]
  end.

Definition ntfs_block : list byte := list_ascii_of_string "xxxNTFS    boot sector".

Definition demo_platform (disks : list handle) (sb : Z) (sfs_test : status) (unload : status)
    (drv_load : status) (sfs_open : nat -> status) (loader_inspect : status)
    (image : list byte) (start : status) : platform := {|
  SecureBootStatus := sb;
  open_main_loaded_image := EFI_SUCCESS;
  boot_device_handle := 1%nat;
  device_path := demo_path;
  locate_disk_io := (EFI_SUCCESS, disks);
  open_block_io := fun _ => EFI_SUCCESS;
  allocate_block := fun _ => true;
  read_block0 := fun h => (EFI_SUCCESS, if Nat.eqb h 1 then [] else ntfs_block);
  test_sfs := fun _ => sfs_test;
  open_protocol_information := fun _ => (EFI_SUCCESS, [7; 8]%nat);
  open_driver_binding := fun a => if Nat.eqb a 7 then (EFI_UNSUPPORTED, 0%nat) else (EFI_SUCCESS, 80%nat);
  unload_image := fun _ => unload;
  driver_file_path := true;
  load_driver_image := (drv_load, 20%nat);
  open_driver_loaded_image := fun _ => EFI_SUCCESS;
  driver_code_type := fun _ => EfiBootServicesCode;
  start_driver_image := fun _ => EFI_SUCCESS;
  connect_controller := fun _ _ => EFI_SUCCESS;
  open_sfs := fun _ => sfs_open;
  open_volume := fun _ => (EFI_SUCCESS, true);
  set_path_case := fun _ => EFI_SUCCESS;
  loader_file_path := fun _ => true;
  load_loader_image := fun _ => (EFI_SUCCESS, 30%nat);
  open_loader_loaded_image := fun _ => loader_inspect;
  loader_image := fun _ => image;
  start_loader_image := fun _ => start
|}.

Definition release_cfg : config := {| _DEBUG := false; NUM_RETRIES := 2; DELAY := 1 |}.

(** An image whose bytes 0x40.. hold "bootmgr.dll" and its NUL. *)
Definition bootmgr_image : list byte :=
  repeat "0"%char 64 ++ BootMgrName ++ list_ascii_of_string "tail".

(** The target needs service and the companion driver is refused with
    AccessDenied, Secure Boot being in Setup mode (a negative status). *)
Definition setup_mode_platform : platform :=
  demo_platform [1; 2]%nat (-1) EFI_UNSUPPORTED EFI_SUCCESS EFI_ACCESS_DENIED
    (fun _ => EFI_SUCCESS) EFI_SUCCESS [] EFI_SUCCESS.

(** The same with Secure Boot Enabled. *)
Definition enabled_platform : platform :=
  demo_platform [1; 2]%nat 1 EFI_UNSUPPORTED EFI_SUCCESS EFI_ACCESS_DENIED
    (fun _ => EFI_SUCCESS) EFI_SUCCESS [] EFI_SUCCESS.

(** Every volume open answers Unsupported. *)
Definition retry_exhausted_platform : platform :=
  demo_platform [1; 2]%nat 0 EFI_UNSUPPORTED EFI_SUCCESS EFI_SUCCESS
    (fun _ => EFI_UNSUPPORTED) EFI_SUCCESS [] EFI_SUCCESS.

(** The next-stage image holds the bootmgr marker and its start answers
    NoMapping. *)
Definition bootmgr_platform : platform :=
  demo_platform [1; 2]%nat 1 EFI_UNSUPPORTED EFI_SUCCESS EFI_SUCCESS
    (fun _ => EFI_SUCCESS) EFI_SUCCESS bootmgr_image EFI_NO_MAPPING.

(** The same, but the loaded-image interface of the next-stage image cannot
    be opened. *)
Definition uninspectable_bootmgr_platform : platform :=
  demo_platform [1; 2]%nat 1 EFI_UNSUPPORTED EFI_SUCCESS EFI_SUCCESS
    (fun _ => EFI_SUCCESS) EFI_UNSUPPORTED bootmgr_image EFI_NO_MAPPING.

(** ** The spec's vocabulary for target selection *)

Inductive fs_kind := NTFS | exFAT | Unknown.

(** The spec: ["NTFS    "] gives NTFS, ["EXFAT   "] exFAT, anything else Unknown. *)
Definition classify_window (w : list byte) : fs_kind :=
  if bytes_eqb w (list_ascii_of_string "NTFS    ") then NTFS
  else if bytes_eqb w (list_ascii_of_string "EXFAT   ") then exFAT
  else Unknown.

(** Index of a kind in [FsMagic] / [FsName]; 2 is [ARRAY_SIZE(FsName)]. *)
Definition fs_index (k : fs_kind) : nat :=
  match k with NTFS => 0 | exFAT => 1 | Unknown => 2 end.

(** Classification of a candidate's first block; any failure to read it is Unknown. *)
Definition first_block_class (p : platform) (h : handle) : fs_kind :=
  if EFI_ERROR (open_block_io p h) || negb (allocate_block p h) then Unknown else
  let '(st, Buffer) := read_block0 p h in
  if EFI_ERROR st then Unknown else classify_window (fs_window Buffer).

Definition devpath_eqb (a b : devpath) : bool := CompareDevicePaths a b =? 0.

(** Not the boot partition and, in a release build, on the boot disk. *)
Definition eligible (cfg : config) (bp bd : devpath) (dp : devpath) : bool :=
  negb (devpath_eqb dp bp) && (_DEBUG cfg || devpath_eqb bd (GetParentDevice dp)).

Definition target_of (cfg : config) (p : platform) (bp bd : devpath) (h : handle) : option nat :=
  if eligible cfg bp bd (device_path p h) then
    match first_block_class p h with
    | NTFS => Some 0%nat
    | exFAT => Some 1%nat
    | Unknown => None
    end
  else None.

(** Driver images of the DiskIo openers whose driver binding resolves, in order. *)
Fixpoint bound_images (p : platform) (OpenInfo : list handle) : list handle :=
  match OpenInfo with
  | [] => []
  | agent :: rest =>
      let '(st, img) := open_driver_binding p agent in
      if EFI_ERROR st then bound_images p rest else img :: bound_images p rest
  end.

(** Each such image with the answer [UnloadImage] would give for it. *)
Definition unload_answers (p : platform) (OpenInfo : list handle) : list (handle * status) :=
  map (fun img => (img, unload_image p img)) (bound_images p OpenInfo).

(** The [UnloadImage] calls of a trace, with their results. *)
Fixpoint unloads (tr : list event) : list (handle * status) :=
  match tr with
  | [] => []
  | Ev_UnloadImage img st :: rest => (img, st) :: unloads rest
  | _ :: rest => unloads rest
  end.

Definition is_retry_event (e : event) : bool :=
  match e with Ev_OpenVolumeProtocol _ _ _ | Ev_Stall _ => true | _ => false end.

Definition is_open_event (e : event) : bool :=
  match e with Ev_OpenVolumeProtocol _ _ _ => true | _ => false end.

(** Open attempts [Try .. Try + k] on [h], each after a stall but the first. *)
Definition retry_schedule (cfg : config) (p : platform) (h : handle) (Try k : nat) : list event :=
  Ev_OpenVolumeProtocol h Try (open_sfs p h Try) ::
  flat_map (fun j => [Ev_Stall (Z.of_nat (DELAY cfg) * 1000000);
                      Ev_OpenVolumeProtocol h j (open_sfs p h j)]) (seq (S Try) k).

(** ** The rest of boot.c *)

(** *** The Secure Boot line of [efi_main] (lines 270-284) *)

Inductive text_color := TEXT_WHITE | TEXT_YELLOW.

(** The colour set before the state is printed ([None]: the default text
    colour) and the state's name. *)
Definition secure_boot_banner (SecureBootStatus : Z) : option text_color * string :=
  if SecureBootStatus =? 0 then (None, "Disabled"%string)
  else (Some (if 0 <? SecureBootStatus then TEXT_WHITE else TEXT_YELLOW),
        if 0 <? SecureBootStatus then "Enabled"%string else "Setup"%string).

(** *** [GetDriverName] (lines 51-70) *)

(** Answers of the component-name protocols of a driver handle. *)
Record component_names := {
  (* OpenProtocol(DriverHandle, ComponentName2, GET_PROTOCOL) *)
  cn2_open : handle -> status;
  (* ComponentName2->GetDriverName(...): status, DriverName *)
  cn2_get : handle -> status * string;
  (* OpenProtocol(DriverHandle, ComponentName, GET_PROTOCOL) *)
  cn_open : handle -> status;
  (* ComponentName->GetDriverName(...): status, DriverName *)
  cn_get : handle -> status * string
}.

Definition GetDriverName (n : component_names) (DriverHandle : handle) : string :=
  if (cn2_open n DriverHandle =? EFI_SUCCESS) && (fst (cn2_get n DriverHandle) =? EFI_SUCCESS)
  then snd (cn2_get n DriverHandle) else
  if (cn_open n DriverHandle =? EFI_SUCCESS) && (fst (cn_get n DriverHandle) =? EFI_SUCCESS)
  then snd (cn_get n DriverHandle) else
  "(unknown driver)".

(** *** [DisconnectBlockingDrivers] (lines 72-147) *)

Definition EFI_OPEN_PROTOCOL_BY_DRIVER : Z := 16.

(** Answers of the firmware to [DisconnectBlockingDrivers]. *)
Record dbd_platform := {
  (* LocateHandleBuffer(ByProtocol, DiskIo): status, Handles[0..HandleCount) *)
  dbd_locate : status * list handle;
  (* OpenProtocol(h, BlockIo, GET_PROTOCOL): status, and [None] when
     BlockIo->Media is NULL, [Some] BlockIo->Media->LogicalPartition otherwise *)
  dbd_block_io : handle -> status * option bool;
  (* OpenProtocol(h, SimpleFileSystem, GET_PROTOCOL) *)
  dbd_sfs : handle -> status;
  (* DevicePathToString(DevicePathFromHandle(h)) *)
  dbd_path_string : handle -> string;
  (* OpenProtocolInformation(h, DiskIo): status, (Attributes, AgentHandle) entries *)
  dbd_open_info : handle -> status * list (Z * handle);
  (* DisconnectController(h, OpenInfo[OpenInfoIndex].AgentHandle, NULL) *)
  dbd_disconnect : handle -> nat -> status;
  dbd_names : component_names
}.

(** Console lines (format and the [%s] arguments) and disconnections. *)
Inductive dbd_event :=
| D_Print (lvl : level) (fmt : string) (args : list string)
| D_Disconnect (Controller Agent : handle) (st : status).

Definition opened_by_driver (Attributes : Z) : bool :=
  Z.land Attributes EFI_OPEN_PROTOCOL_BY_DRIVER =? EFI_OPEN_PROTOCOL_BY_DRIVER.

(** The inner [for (OpenInfoIndex = 0; OpenInfoIndex < OpenInfoCount; OpenInfoIndex++)]. *)
Fixpoint disconnect_openers (d : dbd_platform) (h : handle) (DevicePathString : string)
    (OpenInfo : list (Z * handle)) (OpenInfoIndex : nat) : list dbd_event :=
  match OpenInfo with
  | [] => []
  | (Attributes, AgentHandle) :: rest =>
      (if opened_by_driver Attributes then
         let st := dbd_disconnect d h OpenInfoIndex in
         [D_Disconnect h AgentHandle st;
          if EFI_ERROR st then
            D_Print Error "  Could not disconnect '%s' on %s"
              [GetDriverName (dbd_names d) AgentHandle; DevicePathString]
          else
            D_Print Warning "  Disconnected '%s' on %s "
              [GetDriverName (dbd_names d) AgentHandle; DevicePathString]]
       else []) ++
      disconnect_openers d h DevicePathString rest (S OpenInfoIndex)
  end.

(** The outer [for (Index = 0; Index < HandleCount; Index++)]. *)
Fixpoint disconnect_handles (d : dbd_platform) (Handles : list handle) : list dbd_event :=
  match Handles with
  | [] => []
  | h :: rest =>
      let continue := disconnect_handles d rest in
      let '(st, Media) := dbd_block_io d h in
      if EFI_ERROR st then continue else
      match Media with
      | None | Some false => continue
      | Some true =>
          if dbd_sfs d h =? EFI_SUCCESS then continue else
          let DevicePathString := dbd_path_string d h in
          let '(st, OpenInfo) := dbd_open_info d h in
          if EFI_ERROR st then
            D_Print Warning "  Could not get DiskIo protocol for %s: %r" [DevicePathString] :: continue
          else disconnect_openers d h DevicePathString OpenInfo 0 ++ continue
      end
  end.

Definition DisconnectBlockingDrivers (d : dbd_platform) : list dbd_event :=
  let '(st, Handles) := dbd_locate d in
  if EFI_ERROR st || (List.length Handles =? 0)%nat then []
  else disconnect_handles d Handles.

(** *** [DisplayBanner] (lines 189-234)

    The console output as a list of cells.  [ClearScreen], [SetText] and
    [DefText] change the screen's attributes only and are left out.  The two
    strings are the results of the two [UnicodeSPrint] calls (built from
    VERSION_STRING and [Arch], and the project URL); [Print(String)] prints
    them as they are, neither holding a [%].  BANNER_LINE_SIZE is a constant
    of boot.h, kept as a parameter. *)

Inductive boxdraw :=
| BOXDRAW_HORIZONTAL | BOXDRAW_VERTICAL
| BOXDRAW_DOWN_RIGHT | BOXDRAW_DOWN_LEFT | BOXDRAW_UP_RIGHT | BOXDRAW_UP_LEFT.

Inductive cell := Box (b : boxdraw) | Chr (c : ascii) | NL.

Definition UINTN (x : Z) : Z := x mod 2 ^ 64.

(** [for (; i < bound; i++) Print(body);] over UINTN values: the body is
    printed [bound - i] times when [i < bound], and the loop leaves
    [i = max i bound]. *)
Definition for_print (i bound : Z) (body : list cell) : list cell * Z :=
  (List.concat (repeat body (Z.to_nat (bound - i))), Z.max i bound).

(** Lines 207-215 (and 217-225): a text line, centred between two borders. *)
Definition banner_text_line (BANNER_LINE_SIZE : Z) (String : list ascii) : list cell :=
  let Len := Z.of_nat (List.length String) in
  let '(pad1, i) := for_print 1 (UINTN (BANNER_LINE_SIZE - Len) / 2) [Chr " "] in
  let '(pad2, _) := for_print (UINTN (i + Len)) (UINTN (BANNER_LINE_SIZE - 1)) [Chr " "] in
  [Box BOXDRAW_VERTICAL] ++ pad1 ++ map Chr String ++ pad2 ++ [Box BOXDRAW_VERTICAL; NL].

Definition DisplayBanner (BANNER_LINE_SIZE : Z) (Title Url : list ascii) : list cell :=
  [NL; Box BOXDRAW_DOWN_RIGHT] ++
  fst (for_print 0 (UINTN (BANNER_LINE_SIZE - 2)) [Box BOXDRAW_HORIZONTAL]) ++
  [Box BOXDRAW_DOWN_LEFT; NL] ++
  banner_text_line BANNER_LINE_SIZE Title ++
  banner_text_line BANNER_LINE_SIZE Url ++
  [Box BOXDRAW_UP_RIGHT] ++
  fst (for_print 0 77 [Box BOXDRAW_HORIZONTAL]) ++
  [Box BOXDRAW_UP_LEFT; NL; NL].

(** The screen lines of an output: the cells between two newlines. *)
Fixpoint screen_lines (out : list cell) : list (list cell) :=
  match out with
  | [] => [[]]
  | NL :: rest => [] :: screen_lines rest
  | c :: rest =>
      match screen_lines rest with
      | l :: ls => (c :: l) :: ls
      | [] => [[c]]
      end
  end.

(** *** The volume label query of [efi_main] (lines 469-483) *)

Definition EFI_BUFFER_TOO_SMALL : status := EFIERR 5.

Record label_platform := {
  (* AllocateZeroPool(FILE_INFO_SIZE) != NULL *)
  label_alloc : bool;
  (* Root->GetInfo(Root, VolumeLabelInfo, &Size, VolumeInfo) at its first (0)
     and second (1) call, given Size: status, and Size on return *)
  label_get_info : nat -> Z -> status * Z
}.

Definition volume_label (FILE_INFO_SIZE : Z) (lp : label_platform) : M unit :=
  if negb (label_alloc lp) then ret tt else
  let '(Status, Size) := label_get_info lp 0 FILE_INFO_SIZE in
  let Status :=
    if (Status =? EFI_BUFFER_TOO_SMALL) && (Size <=? FILE_INFO_SIZE)
    then fst (label_get_info lp 1 Size) else Status in
  if Status =? EFI_SUCCESS then PrintInfo "  Volume label is '%s'"
  else PrintWarning "  Could not read volume label: [%d] %r\n".

(** Lines 461-540 with the volume label query and the message of line 485,
    which [chain_load] leaves out. *)
Definition chain_load_full (FILE_INFO_SIZE : Z) (lp : label_platform)
    (p : platform) (h : handle) : M status :=
  let '(st, RootOk) := open_volume p h in
  if EFI_ERROR st || negb RootOk then
    (PrintError "  Could not open Root directory";; goto_out st) else
  volume_label FILE_INFO_SIZE lp;;
  PrintInfo "This system uses %s UEFI => searching for %s EFI bootloader";;
  let st := set_path_case p h in
  if EFI_ERROR st then (PrintError "  Could not locate '%s'";; goto_out st) else
  PrintInfo "Launching '%s'...";;
  if negb (loader_file_path p h) then
    (PrintError "  Could not create path";; goto_out EFI_DEVICE_ERROR) else
  let '(st, ImageHandle) := load_loader_image p h in
  emit (Ev_LoadImage LoaderImage st);;
  if EFI_ERROR st then
    (PrintError "  Load failure";; goto_out (load_error_status (SecureBootStatus p) st)) else
  inspect_and_start p ImageHandle.

(** The lines of [chain_load_full] that [chain_load] does not print. *)
Definition label_line (e : event) : bool :=
  match e with
  | Ev_Print Info s =>
      String.eqb s "  Volume label is '%s'" ||
      String.eqb s "This system uses %s UEFI => searching for %s EFI bootloader"
  | Ev_Print Warning s => String.eqb s "  Could not read volume label: [%d] %r\n"
  | _ => false
  end.

(** *** More concrete firmware, for evaluation *)

(** [p] with another [OpenVolume] answer. *)
Definition with_open_volume (p : platform) (ov : handle -> status * bool) : platform := {|
  SecureBootStatus := SecureBootStatus p;
  open_main_loaded_image := open_main_loaded_image p;
  boot_device_handle := boot_device_handle p;
  device_path := device_path p;
  locate_disk_io := locate_disk_io p;
  open_block_io := open_block_io p;
  allocate_block := allocate_block p;
  read_block0 := read_block0 p;
  test_sfs := test_sfs p;
  open_protocol_information := open_protocol_information p;
  open_driver_binding := open_driver_binding p;
  unload_image := unload_image p;
  driver_file_path := driver_file_path p;
  load_driver_image := load_driver_image p;
  open_driver_loaded_image := open_driver_loaded_image p;
  driver_code_type := driver_code_type p;
  start_driver_image := start_driver_image p;
  connect_controller := connect_controller p;
  open_sfs := open_sfs p;
  open_volume := ov;
  set_path_case := set_path_case p;
  loader_file_path := loader_file_path p;
  load_loader_image := load_loader_image p;
  open_loader_loaded_image := open_loader_loaded_image p;
  loader_image := loader_image p;
  start_loader_image := start_loader_image p
|}.

(** The volume opens, but [OpenVolume] gives a NULL root with EFI_SUCCESS. *)
Definition null_root_platform : platform :=
  with_open_volume
    (demo_platform [1; 2]%nat 0 EFI_UNSUPPORTED EFI_SUCCESS EFI_SUCCESS
       (fun _ => EFI_SUCCESS) EFI_SUCCESS [] EFI_SUCCESS)
    (fun _ => (EFI_SUCCESS, false)).

(** EFI_WARN_UNKNOWN_GLYPH: a warning, not an error. *)
Definition EFI_WARN_UNKNOWN_GLYPH : status := 1.

(** The file system test of the target answers a warning. *)
Definition warning_test_platform : platform :=
  demo_platform [1; 2]%nat 0 EFI_WARN_UNKNOWN_GLYPH EFI_SUCCESS EFI_SUCCESS
    (fun _ => EFI_SUCCESS) EFI_SUCCESS [] EFI_SUCCESS.

Definition demo_names : component_names := {|
  cn2_open := fun _ => EFI_SUCCESS;
  cn2_get := fun a => (EFI_SUCCESS, if Nat.eqb a 7 then "Partition Driver"%string else "Other Driver"%string);
  cn_open := fun _ => EFI_UNSUPPORTED;
  cn_get := fun _ => (EFI_UNSUPPORTED, EmptyString)
|}.

(** Handle 4 is a partition with no file system whose DiskIo is opened by
    agent 7 BY_DRIVER|EXCLUSIVE (0x30) and by agent 9 GET_PROTOCOL (0x02);
    handle 5 is a whole disk; the disconnection of agent 7 fails. *)
Definition demo_dbd : dbd_platform := {|
  dbd_locate := (EFI_SUCCESS, [5; 4]%nat);
  dbd_block_io := fun h => (EFI_SUCCESS, Some (Nat.eqb h 4));
  dbd_sfs := fun _ => EFI_UNSUPPORTED;
  dbd_path_string := fun _ => "PciRoot(0x0)/HD(2)"%string;
  dbd_open_info := fun _ => (EFI_SUCCESS, [(48, 7%nat); (2, 9%nat)]);
  dbd_disconnect := fun _ _ => EFI_ACCESS_DENIED;
  dbd_names := demo_names
|}.

(** The conditions under which [DisconnectBlockingDrivers] disconnects
    agent [a] from controller [c]. *)
Definition dbd_blocking (d : dbd_platform) (c a : handle) : Prop :=
  EFI_ERROR (fst (dbd_block_io d c)) = false /\ snd (dbd_block_io d c) = Some true /\
  dbd_sfs d c <> EFI_SUCCESS /\ EFI_ERROR (fst (dbd_open_info d c)) = false /\
  exists Attributes, In (Attributes, a) (snd (dbd_open_info d c)) /\
                     opened_by_driver Attributes = true.

(** ** Tactics for the run-level proofs *)

Ltac split_in :=
  repeat match goal with
  | H : In _ (_ ++ _) |- _ => apply in_app_or in H; destruct H as [H|H]
  | H : In _ (_ :: _) |- _ => destruct H as [H|H]
  | H : In _ [] |- _ => destruct H
  end.

Ltac run_cases H :=
  repeat (cbn -[find_target UnloadDriver open_retry is_windows_bootmgr load_error_status
               EFI_ERROR Z.eqb Z.leb] in H;
          match type of H with
          | context[match ?x with _ => _ end] =>
              lazymatch x with
              | context[match _ with _ => _ end] => fail
              | _ => destruct x eqn:?
              end
          end).

(** [unload_ev] and [retry_ev] are the event lemmas of [UnloadDriver] and
    [open_retry]. *)
Ltac loop_events unload_ev retry_ev :=
  repeat match goal with
  | H : In ?e ?l, E : UnloadDriver ?p ?h = (_, ?l) |- _ =>
      let X := fresh in
      pose proof (unload_ev p h e) as X; rewrite E in X; specialize (X H);
      simpl in X; clear H
  | H : In ?e ?l, E : open_retry ?cfg ?p ?h ?T ?L = (_, ?l) |- _ =>
      let X := fresh in
      pose proof (retry_ev cfg p h L T e) as X; rewrite E in X; specialize (X H);
      simpl in X; clear H
  end.

Ltac finish_pair :=
  match goal with Hb : (_, _) = (?r, ?t) |- _ => injection Hb as <- <- end;
  split_in.

Ltac close_run unload_ev retry_ev :=
  finish_pair; loop_events unload_ev retry_ev; try discriminate; try contradiction.

(** ** Lemmas on the selection loop *)

Lemma devpath_eqb_spec (a b : devpath) : devpath_eqb a b = true <-> a = b.
Proof.
  unfold devpath_eqb, CompareDevicePaths.
  destruct (list_eq_dec (list_eq_dec ascii_dec) a b); simpl; split; congruence.
Qed.

Lemma bytes_eqb_spec (a b : list byte) : bytes_eqb a b = true <-> a = b.
Proof.
  unfold bytes_eqb; destruct (list_eq_dec ascii_dec a b); split; congruence.
Qed.

Lemma fs_type_classify (Buffer : list byte) :
  fs_type Buffer = fs_index (classify_window (fs_window Buffer)).
Proof.
  unfold fs_type, classify_window, FsMagic; simpl.
  destruct (bytes_eqb (fs_window Buffer) _); [reflexivity|].
  destruct (bytes_eqb (fs_window Buffer) _); reflexivity.
Qed.

Lemma find_target_cons (cfg : config) (p : platform) (bp bd : devpath)
    (h : handle) (rest : list handle) (k : nat) :
  find_target cfg p bp bd (h :: rest) k =
  match target_of cfg p bp bd h with
  | Some t => Some (k, h, t)
  | None => find_target cfg p bp bd rest (S k)
  end.
Proof.
  simpl. unfold target_of, eligible, devpath_eqb, first_block_class.
  destruct (CompareDevicePaths (device_path p h) bp =? 0); simpl; [reflexivity|].
  destruct (_DEBUG cfg); simpl;
  [| destruct (CompareDevicePaths bd (GetParentDevice (device_path p h)) =? 0); simpl;
     [|reflexivity]];
  (destruct (EFI_ERROR (open_block_io p h)); simpl; [reflexivity|]);
  (destruct (allocate_block p h); simpl; [|reflexivity]);
  (destruct (read_block0 p h) as [st Buffer];
   destruct (EFI_ERROR st); [reflexivity|]);
  rewrite fs_type_classify;
  destruct (classify_window (fs_window Buffer)); reflexivity.
Qed.

Lemma find_target_spec (cfg : config) (p : platform) (bp bd : devpath) :
  forall (hs : list handle) (k i : nat) (h : handle) (t : nat),
  find_target cfg p bp bd hs k = Some (i, h, t) <->
  (k <= i)%nat /\ nth_error hs (i - k) = Some h /\ target_of cfg p bp bd h = Some t /\
  (forall j h', (k <= j < i)%nat -> nth_error hs (j - k) = Some h' ->
                target_of cfg p bp bd h' = None).
Proof.
  induction hs as [|x rest IH]; intros k i h t.
  - simpl. split; [discriminate|]. intros (_ & H & _). destruct (i - k)%nat; discriminate.
  - rewrite find_target_cons.
    destruct (target_of cfg p bp bd x) as [tx|] eqn:Ex.
    + split.
      * intros E; injection E as <- <- <-. rewrite Nat.sub_diag.
        repeat split; auto; intros; lia.
      * intros (Hk & Hn & Ht & Hb).
        destruct (Nat.eq_dec i k) as [->|Hne].
        -- rewrite Nat.sub_diag in Hn; simpl in Hn; injection Hn as <-. congruence.
        -- exfalso. assert (Hx := Hb k x ltac:(lia) ltac:(now rewrite Nat.sub_diag)).
           congruence.
    + rewrite IH. split.
      * intros (Hk & Hn & Ht & Hb). repeat split; [lia| | exact Ht |].
        -- replace (i - k)%nat with (S (i - S k)) by lia. exact Hn.
        -- intros j h' Hj Hj'. destruct (Nat.eq_dec j k) as [->|Hne].
           ++ rewrite Nat.sub_diag in Hj'; simpl in Hj'; injection Hj' as <-; exact Ex.
           ++ apply (Hb j); [lia|]. replace (j - S k)%nat with (pred (j - k)) by lia.
              destruct (j - k)%nat eqn:E; [lia|exact Hj'].
      * intros (Hk & Hn & Ht & Hb).
        destruct (Nat.eq_dec i k) as [->|Hne].
        -- rewrite Nat.sub_diag in Hn; simpl in Hn; injection Hn as <-. congruence.
        -- repeat split; [lia| | exact Ht |].
           ++ replace (i - k)%nat with (S (i - S k)) in Hn by lia. exact Hn.
           ++ intros j h' Hj Hj'. apply (Hb j); [lia|].
              replace (j - k)%nat with (S (j - S k)) by lia. exact Hj'.
Qed.

Lemma find_target_none (cfg : config) (p : platform) (bp bd : devpath) :
  forall (hs : list handle) (k : nat),
  find_target cfg p bp bd hs k = None <->
  Forall (fun h => target_of cfg p bp bd h = None) hs.
Proof.
  induction hs as [|x rest IH]; intros k.
  - simpl; split; auto.
  - rewrite find_target_cons. destruct (target_of cfg p bp bd x) eqn:Ex.
    + split; [discriminate|]. intros H; inversion H; congruence.
    + rewrite IH. split; [intros; constructor; auto | intros H; inversion H; auto].
Qed.

(** ** Claims on target selection *)

(** C1: the target is the first enumerated candidate that is eligible (not
    the boot partition; on the boot disk in a release build) and whose first
    block classifies as NTFS or exFAT; when there is none, the run fails with
    NotFound and no target is selected: no service, open or launch happens. *)
Theorem C1_first_eligible_target (cfg : config) (p : platform) (st : status) (hs : list handle)
    (Hmain : EFI_ERROR (open_main_loaded_image p) = false)
    (Hloc : locate_disk_io p = (st, hs)) (Hst : EFI_ERROR st = false) :
  let bp := device_path p (boot_device_handle p) in
  let bd := GetParentDevice bp in
  (forall i h t,
     find_target cfg p bp bd hs 0 = Some (i, h, t) <->
     nth_error hs i = Some h /\ target_of cfg p bp bd h = Some t /\
     forall j h', (j < i)%nat -> nth_error hs j = Some h' -> target_of cfg p bp bd h' = None) /\
  (Forall (fun h => target_of cfg p bp bd h = None) hs ->
   efi_main cfg p =
   (EFI_NOT_FOUND,
    [Ev_Print Info "Disconnecting potentially blocking drivers";
     Ev_Print Info "Searching for target partition on boot disk:";
     Ev_Print Error "  Could not locate target partition";
     Ev_Print Warning "Press any key to exit."; Ev_WaitForKey])).
Proof.
  intros bp bd. split.
  - intros i h t. rewrite find_target_spec, Nat.sub_0_r. split.
    + intros (_ & Hn & Ht & Hb). repeat split; auto.
      intros j h' Hj Hj'. apply (Hb j); [lia|]. now rewrite Nat.sub_0_r.
    + intros (Hn & Ht & Hb). repeat split; auto; [lia|].
      intros j h' Hj Hj'. apply (Hb j); [lia|]. now rewrite Nat.sub_0_r in Hj'.
  - intros Hnone. apply (find_target_none cfg p bp bd hs 0) in Hnone.
    unfold efi_main, efi_main_body. rewrite Hmain, Hloc, Hst. fold bp bd. rewrite Hnone.
    reflexivity.
Qed.

Lemma C1_first_eligible_target_witness :
  efi_main release_cfg
    (demo_platform [1; 3]%nat 0 EFI_SUCCESS EFI_SUCCESS EFI_SUCCESS (fun _ => EFI_SUCCESS)
       EFI_SUCCESS [] EFI_SUCCESS) =
  (EFI_NOT_FOUND,
   [Ev_Print Info "Disconnecting potentially blocking drivers";
    Ev_Print Info "Searching for target partition on boot disk:";
    Ev_Print Error "  Could not locate target partition";
    Ev_Print Warning "Press any key to exit."; Ev_WaitForKey]).
Proof.
  apply (proj2 (C1_first_eligible_target release_cfg
    (demo_platform [1; 3]%nat 0 EFI_SUCCESS EFI_SUCCESS EFI_SUCCESS (fun _ => EFI_SUCCESS)
       EFI_SUCCESS [] EFI_SUCCESS) EFI_SUCCESS [1; 3]%nat
    ltac:(vm_compute; reflexivity) eq_refl ltac:(vm_compute; reflexivity))).
  vm_compute. repeat constructor.
Defined.

(** C2: the classification depends only on the 8 bytes at offset 3 of the
    first block: "NTFS    " is NTFS (index 0), "EXFAT   " is exFAT (index 1),
    anything else Unknown (index 2); a failed block read makes the candidate
    Unknown, and the loop goes on with the next candidate. *)
Theorem C2_signature_classification (cfg : config) (p : platform) (bp bd : devpath) :
  (forall Buffer, fs_window Buffer = list_ascii_of_string "NTFS    " -> fs_type Buffer = 0%nat) /\
  (forall Buffer, fs_window Buffer = list_ascii_of_string "EXFAT   " -> fs_type Buffer = 1%nat) /\
  (forall Buffer, fs_window Buffer <> list_ascii_of_string "NTFS    " ->
                  fs_window Buffer <> list_ascii_of_string "EXFAT   " -> fs_type Buffer = 2%nat) /\
  (forall b1 b2, fs_window b1 = fs_window b2 -> fs_type b1 = fs_type b2) /\
  (forall h rest k st Buffer, read_block0 p h = (st, Buffer) -> EFI_ERROR st = true ->
     first_block_class p h = Unknown /\
     find_target cfg p bp bd (h :: rest) k = find_target cfg p bp bd rest (S k)).
Proof.
  split; [|split; [|split; [|split]]].
  - intros b E. rewrite fs_type_classify, E. reflexivity.
  - intros b E. rewrite fs_type_classify, E. reflexivity.
  - intros b E1 E2. rewrite fs_type_classify. unfold classify_window.
    destruct (bytes_eqb _ (list_ascii_of_string "NTFS    ")) eqn:B1;
      [apply bytes_eqb_spec in B1; contradiction|].
    destruct (bytes_eqb _ (list_ascii_of_string "EXFAT   ")) eqn:B2;
      [apply bytes_eqb_spec in B2; contradiction|reflexivity].
  - intros b1 b2 E. unfold fs_type. rewrite E. reflexivity.
  - intros h rest k st Buffer Hr He. split.
    { unfold first_block_class. rewrite Hr, He.
      destruct (EFI_ERROR (open_block_io p h) || negb (allocate_block p h)); reflexivity. }
    rewrite find_target_cons.
    unfold target_of, first_block_class. rewrite Hr, He.
    destruct (eligible _ _ _ _); [|reflexivity].
    destruct (EFI_ERROR (open_block_io p h) || negb (allocate_block p h)); reflexivity.
Qed.

Lemma C2_signature_classification_witness : fs_type ntfs_block = 0%nat.
Proof.
  apply (proj1 (C2_signature_classification release_cfg
    (demo_platform [] 0 EFI_SUCCESS EFI_SUCCESS EFI_SUCCESS (fun _ => EFI_SUCCESS)
       EFI_SUCCESS [] EFI_SUCCESS) [] [])).
  reflexivity.
Defined.

(** C3: a candidate whose device path equals the boot partition's path is
    skipped, so the boot partition is never the selected target. *)
Theorem C3_boot_partition_excluded (cfg : config) (p : platform) (bp bd : devpath) :
  (forall h rest k, device_path p h = bp ->
     find_target cfg p bp bd (h :: rest) k = find_target cfg p bp bd rest (S k)) /\
  (forall hs k i h t, find_target cfg p bp bd hs k = Some (i, h, t) -> device_path p h <> bp).
Proof.
  split.
  - intros h rest k E. rewrite find_target_cons. unfold target_of, eligible.
    replace (devpath_eqb (device_path p h) bp) with true
      by (symmetry; apply devpath_eqb_spec; exact E).
    reflexivity.
  - intros hs k i h t Hf E. apply find_target_spec in Hf as (_ & _ & Ht & _).
    unfold target_of, eligible in Ht.
    replace (devpath_eqb (device_path p h) bp) with true in Ht
      by (symmetry; apply devpath_eqb_spec; exact E).
    discriminate.
Qed.

Lemma C3_boot_partition_excluded_witness :
  find_target release_cfg
    (demo_platform [1; 2]%nat 0 EFI_SUCCESS EFI_SUCCESS EFI_SUCCESS (fun _ => EFI_SUCCESS)
       EFI_SUCCESS [] EFI_SUCCESS)
    (demo_path 1%nat) (GetParentDevice (demo_path 1%nat)) [1; 2]%nat 0 =
  find_target release_cfg
    (demo_platform [1; 2]%nat 0 EFI_SUCCESS EFI_SUCCESS EFI_SUCCESS (fun _ => EFI_SUCCESS)
       EFI_SUCCESS [] EFI_SUCCESS)
    (demo_path 1%nat) (GetParentDevice (demo_path 1%nat)) [2]%nat 1.
Proof.
  apply (proj1 (C3_boot_partition_excluded release_cfg
    (demo_platform [1; 2]%nat 0 EFI_SUCCESS EFI_SUCCESS EFI_SUCCESS (fun _ => EFI_SUCCESS)
       EFI_SUCCESS [] EFI_SUCCESS)
    (demo_path 1%nat) (GetParentDevice (demo_path 1%nat)))).
  reflexivity.
Defined.

(** C8: in a release build the selected target's parent path (its path
    without the last node) is the boot disk's path; in a debug build the
    selection does not depend on the boot disk's path at all. *)
Theorem C8_same_disk_in_release (cfg : config) (p : platform) (bp bd : devpath) :
  (_DEBUG cfg = false -> forall hs k i h t,
     find_target cfg p bp bd hs k = Some (i, h, t) -> GetParentDevice (device_path p h) = bd) /\
  (_DEBUG cfg = true -> forall bd' hs k,
     find_target cfg p bp bd hs k = find_target cfg p bp bd' hs k).
Proof.
  split.
  - intros Hrel hs k i h t Hf. apply find_target_spec in Hf as (_ & _ & Ht & _).
    unfold target_of, eligible in Ht. rewrite Hrel in Ht. simpl in Ht.
    destruct (devpath_eqb bd (GetParentDevice (device_path p h))) eqn:E.
    + symmetry. apply devpath_eqb_spec. exact E.
    + rewrite andb_false_r in Ht. discriminate.
  - intros Hdbg bd' hs. induction hs as [|x rest IH]; intros k; [reflexivity|].
    rewrite !find_target_cons. unfold target_of, eligible. rewrite Hdbg. simpl orb.
    rewrite !andb_true_r, IH. reflexivity.
Qed.

Lemma C8_same_disk_in_release_witness :
  GetParentDevice (demo_path 2%nat) = GetParentDevice (demo_path 1%nat).
Proof.
  apply (proj1 (C8_same_disk_in_release release_cfg
    (demo_platform [1; 3; 2]%nat 0 EFI_SUCCESS EFI_SUCCESS EFI_SUCCESS (fun _ => EFI_SUCCESS)
       EFI_SUCCESS [] EFI_SUCCESS)
    (demo_path 1%nat) (GetParentDevice (demo_path 1%nat))) eq_refl [1; 3; 2]%nat 0%nat 2%nat 2%nat 0%nat).
  vm_compute. reflexivity.
Defined.

(** ** Lemmas on [UnloadDriver] and the retry loop *)

Lemma unloads_app (a b : list event) : unloads (a ++ b) = unloads a ++ unloads b.
Proof.
  induction a as [|e a IH]; [reflexivity|]. destruct e; simpl; rewrite ?IH; reflexivity.
Qed.

Lemma unload_openers_all_fail (p : platform) (OpenInfo : list handle) :
  Forall (fun a => EFI_ERROR (snd a) = true) (unload_answers p OpenInfo) ->
  fst (unload_openers p OpenInfo) = Next EFI_NOT_FOUND /\
  unloads (snd (unload_openers p OpenInfo)) = unload_answers p OpenInfo.
Proof.
  unfold unload_answers.
  induction OpenInfo as [|a rest IH]; simpl; [auto|].
  destruct (open_driver_binding p a) as [st img]. destruct (EFI_ERROR st); [exact IH|].
  intros Hf. inversion Hf as [|x l Himg Hrest]; subst. simpl in Himg.
  destruct IH as [IH1 IH2]; [exact Hrest|].
  destruct (unload_openers p rest) as [r t] eqn:E. simpl in IH1, IH2 |- *.
  rewrite Himg. simpl. split; [exact IH1|].
  rewrite ?unloads_app. simpl. rewrite IH2. reflexivity.
Qed.

Lemma unload_openers_first_success (p : platform) (OpenInfo : list handle) :
  forall pre x post, unload_answers p OpenInfo = pre ++ x :: post ->
  Forall (fun a => EFI_ERROR (snd a) = true) pre -> EFI_ERROR (snd x) = false ->
  fst (unload_openers p OpenInfo) = Next EFI_SUCCESS /\
  unloads (snd (unload_openers p OpenInfo)) = pre ++ [x].
Proof.
  unfold unload_answers.
  induction OpenInfo as [|a rest IH]; intros pre x post Hs Hpre Hx.
  - destruct pre; discriminate.
  - simpl in Hs |- *. destruct (open_driver_binding p a) as [st img].
    destruct (EFI_ERROR st); [exact (IH pre x post Hs Hpre Hx)|].
    simpl in Hs. destruct pre as [|y pre'].
    + injection Hs as Hx' _. subst x. simpl in Hx. rewrite Hx. simpl. auto.
    + injection Hs as Hy Hs. subst y. inversion Hpre as [|? ? Hyf Hpre']; subst.
      simpl in Hyf. rewrite Hyf.
      destruct (IH pre' x post Hs Hpre' Hx) as [IH1 IH2].
      destruct (unload_openers p rest) as [r t] eqn:E. simpl in IH1, IH2 |- *.
      split; [exact IH1|]. rewrite ?unloads_app. simpl. rewrite IH2. reflexivity.
Qed.

Lemma unload_openers_next (p : platform) (OpenInfo : list handle) :
  fst (unload_openers p OpenInfo) = Next EFI_SUCCESS \/
  fst (unload_openers p OpenInfo) = Next EFI_NOT_FOUND.
Proof.
  induction OpenInfo as [|a rest IH]; simpl; [auto|].
  destruct (open_driver_binding p a) as [st img]. destruct (EFI_ERROR st); [exact IH|].
  simpl. destruct (EFI_ERROR (unload_image p img)); simpl; [|auto].
  destruct (unload_openers p rest) as [r t]. exact IH.
Qed.

Lemma open_retry_success (cfg : config) (p : platform) (h : handle) :
  forall left Try k, (k <= left)%nat ->
  (forall j, (Try <= j < Try + k)%nat -> EFI_ERROR (open_sfs p h j) = true) ->
  EFI_ERROR (open_sfs p h (Try + k)) = false ->
  fst (open_retry cfg p h Try left) = Next tt /\
  filter is_retry_event (snd (open_retry cfg p h Try left)) = retry_schedule cfg p h Try k.
Proof.
  induction left as [|left IH]; intros Try k Hk Hfail Hok.
  - assert (k = 0%nat) by lia; subst k. rewrite Nat.add_0_r in Hok.
    simpl. rewrite Hok. simpl. auto.
  - destruct k as [|k].
    + rewrite Nat.add_0_r in Hok. simpl. rewrite Hok. simpl. auto.
    + assert (Hf0 : EFI_ERROR (open_sfs p h Try) = true) by (apply Hfail; lia).
      destruct (IH (S Try) k ltac:(lia)) as [IH1 IH2].
      { intros j Hj. apply Hfail. lia. }
      { replace (S Try + k)%nat with (Try + S k)%nat by lia. exact Hok. }
      simpl. rewrite Hf0. simpl.
      destruct (open_retry cfg p h (S Try) left) as [r t]. simpl in IH1, IH2 |- *.
      split; [exact IH1|]. rewrite IH2. reflexivity.
Qed.

Lemma open_retry_exhausted (cfg : config) (p : platform) (h : handle) :
  forall left Try,
  (forall j, (Try <= j <= Try + left)%nat -> EFI_ERROR (open_sfs p h j) = true) ->
  fst (open_retry cfg p h Try left) = Out (open_sfs p h (Try + left)) /\
  filter is_retry_event (snd (open_retry cfg p h Try left)) = retry_schedule cfg p h Try left.
Proof.
  induction left as [|left IH]; intros Try Hfail.
  - assert (Hf0 : EFI_ERROR (open_sfs p h Try) = true) by (apply Hfail; lia).
    simpl. rewrite Hf0, Nat.add_0_r. simpl. auto.
  - assert (Hf0 : EFI_ERROR (open_sfs p h Try) = true) by (apply Hfail; lia).
    destruct (IH (S Try)) as [IH1 IH2]; [intros j Hj; apply Hfail; lia|].
    simpl. rewrite Hf0. simpl.
    destruct (open_retry cfg p h (S Try) left) as [r t]. simpl in IH1, IH2 |- *.
    split; [rewrite IH1; f_equal; f_equal; lia|]. rewrite IH2. reflexivity.
Qed.

Lemma open_retry_bound (cfg : config) (p : platform) (h : handle) :
  forall left Try,
  (List.length (filter is_open_event (snd (open_retry cfg p h Try left))) <= S left)%nat.
Proof.
  induction left as [|left IH]; intros Try; simpl.
  - destruct (EFI_ERROR (open_sfs p h Try)); simpl; lia.
  - destruct (EFI_ERROR (open_sfs p h Try)); simpl; [|lia].
    specialize (IH (S Try)). destruct (open_retry cfg p h (S Try) left) as [r t].
    simpl in IH |- *. lia.
Qed.

(** ** Claims on the driver lifecycle and the retry loop *)

(** C5: [UnloadDriver] tries the DiskIo openers in order, skips those whose
    driver binding does not resolve, and stops at the first successful
    unload, which it reports as success; if no unload succeeds it reports
    NotFound.  When the partition already has a file system, a successful
    unload is followed by the companion driver load/start step, and a failed
    one skips that step. *)
Theorem C5_unload_then_service (p : platform) (h : handle) :
  (forall st OpenInfo, open_protocol_information p h = (st, OpenInfo) -> EFI_ERROR st = false ->
     (Forall (fun a => EFI_ERROR (snd a) = true) (unload_answers p OpenInfo) ->
        fst (UnloadDriver p h) = Next EFI_NOT_FOUND /\
        unloads (snd (UnloadDriver p h)) = unload_answers p OpenInfo) /\
     (forall pre x post, unload_answers p OpenInfo = pre ++ x :: post ->
        Forall (fun a => EFI_ERROR (snd a) = true) pre -> EFI_ERROR (snd x) = false ->
        fst (UnloadDriver p h) = Next EFI_SUCCESS /\
        unloads (snd (UnloadDriver p h)) = pre ++ [x])) /\
  (test_sfs p h = EFI_SUCCESS ->
     (fst (UnloadDriver p h) = Next EFI_SUCCESS ->
        ensure_service p h = (_ <- UnloadDriver p h;; start_companion p h)) /\
     (fst (UnloadDriver p h) <> Next EFI_SUCCESS ->
        ensure_service p h = (_ <- UnloadDriver p h;; ret tt))).
Proof.
  split.
  - intros st OpenInfo Ho He. unfold UnloadDriver. rewrite Ho, He. split.
    + apply unload_openers_all_fail.
    + apply unload_openers_first_success.
  - intros Hs.
    assert (Hn : fst (UnloadDriver p h) = Next EFI_SUCCESS \/
                 fst (UnloadDriver p h) = Next EFI_NOT_FOUND).
    { unfold UnloadDriver. destruct (open_protocol_information p h) as [st OpenInfo].
      destruct (EFI_ERROR st); [right; reflexivity|apply unload_openers_next]. }
    unfold ensure_service. rewrite Hs.
    destruct (UnloadDriver p h) as [r tr]. simpl in Hn |- *.
    split; intros Hu.
    + subst r. simpl. destruct (start_companion p h) as [r2 t2]. rewrite app_nil_r. reflexivity.
    + destruct Hn as [Hn|Hn]; [contradiction|]. subst r. simpl. rewrite !app_nil_r. reflexivity.
Qed.

Lemma C5_unload_then_service_witness :
  ensure_service
    (demo_platform [1; 2]%nat 0 EFI_SUCCESS EFI_SUCCESS EFI_SUCCESS (fun _ => EFI_SUCCESS)
       EFI_SUCCESS [] EFI_SUCCESS) 2%nat =
  (_ <- UnloadDriver
     (demo_platform [1; 2]%nat 0 EFI_SUCCESS EFI_SUCCESS EFI_SUCCESS (fun _ => EFI_SUCCESS)
        EFI_SUCCESS [] EFI_SUCCESS) 2%nat;;
   start_companion
     (demo_platform [1; 2]%nat 0 EFI_SUCCESS EFI_SUCCESS EFI_SUCCESS (fun _ => EFI_SUCCESS)
        EFI_SUCCESS [] EFI_SUCCESS) 2%nat).
Proof.
  apply (proj1 (proj2 (C5_unload_then_service
    (demo_platform [1; 2]%nat 0 EFI_SUCCESS EFI_SUCCESS EFI_SUCCESS (fun _ => EFI_SUCCESS)
       EFI_SUCCESS [] EFI_SUCCESS) 2%nat) eq_refl)).
  vm_compute. reflexivity.
Defined.

(** C6: the retry loop opens the volume on the target handle at most
    NUM_RETRIES + 1 times, with a stall of DELAY seconds between two
    consecutive attempts; if attempt k (k <= NUM_RETRIES) is the first to
    succeed, exactly attempts 0..k are made and the loop returns. *)
Theorem C6_bounded_retry (cfg : config) (p : platform) (h : handle) :
  (List.length (filter is_open_event (snd (open_retry cfg p h 0 (NUM_RETRIES cfg))))
     <= S (NUM_RETRIES cfg))%nat /\
  (forall k, (k <= NUM_RETRIES cfg)%nat ->
     (forall j, (j < k)%nat -> EFI_ERROR (open_sfs p h j) = true) ->
     EFI_ERROR (open_sfs p h k) = false ->
     fst (open_retry cfg p h 0 (NUM_RETRIES cfg)) = Next tt /\
     filter is_retry_event (snd (open_retry cfg p h 0 (NUM_RETRIES cfg))) =
       retry_schedule cfg p h 0 k) /\
  ((forall j, (j <= NUM_RETRIES cfg)%nat -> EFI_ERROR (open_sfs p h j) = true) ->
     filter is_retry_event (snd (open_retry cfg p h 0 (NUM_RETRIES cfg))) =
       retry_schedule cfg p h 0 (NUM_RETRIES cfg)).
Proof.
  split; [apply open_retry_bound|split].
  - intros k Hk Hfail Hok. apply open_retry_success; [exact Hk| |exact Hok].
    intros j Hj. apply Hfail. lia.
  - intros Hfail. apply open_retry_exhausted. intros j Hj. apply Hfail. lia.
Qed.

Lemma C6_bounded_retry_witness :
  filter is_retry_event (snd (open_retry release_cfg
     (demo_platform [1; 2]%nat 0 EFI_SUCCESS EFI_SUCCESS EFI_SUCCESS
        (fun t => if Nat.eqb t 1 then EFI_SUCCESS else EFI_UNSUPPORTED)
        EFI_SUCCESS [] EFI_SUCCESS) 2%nat 0 (NUM_RETRIES release_cfg))) =
  [Ev_OpenVolumeProtocol 2%nat 0 EFI_UNSUPPORTED; Ev_Stall 1000000;
   Ev_OpenVolumeProtocol 2%nat 1 EFI_SUCCESS].
Proof.
  rewrite (proj2 (proj1 (proj2 (C6_bounded_retry release_cfg
     (demo_platform [1; 2]%nat 0 EFI_SUCCESS EFI_SUCCESS EFI_SUCCESS
        (fun t => if Nat.eqb t 1 then EFI_SUCCESS else EFI_UNSUPPORTED)
        EFI_SUCCESS [] EFI_SUCCESS) 2%nat)) 1%nat ltac:(vm_compute; lia)
     ltac:(intros j Hj; assert (j = 0%nat) by lia; subst j; vm_compute; reflexivity)
     ltac:(vm_compute; reflexivity))).
  vm_compute. reflexivity.
Defined.

(** ** Events of the loops, and the run's status *)

Lemma unload_openers_events (p : platform) (OpenInfo : list handle) (e : event) :
  In e (snd (unload_openers p OpenInfo)) ->
  match e with Ev_Print _ _ | Ev_UnloadImage _ _ => True | _ => False end.
Proof.
  induction OpenInfo as [|a rest IH]; simpl; [tauto|].
  destruct (open_driver_binding p a) as [st img]. destruct (EFI_ERROR st); [exact IH|].
  simpl. destruct (EFI_ERROR (unload_image p img)); simpl.
  - destruct (unload_openers p rest) as [r t]. simpl in IH |- *.
    intros [<-|[<-|[<-|H]]]; [exact I..|exact (IH H)].
  - intros [<-|[<-|[]]]; exact I.
Qed.

Lemma UnloadDriver_events (p : platform) (h : handle) (e : event) :
  In e (snd (UnloadDriver p h)) ->
  match e with Ev_Print _ _ | Ev_UnloadImage _ _ => True | _ => False end.
Proof.
  unfold UnloadDriver. destruct (open_protocol_information p h) as [st OpenInfo].
  destruct (EFI_ERROR st); [simpl; tauto|apply unload_openers_events].
Qed.

Lemma open_retry_events (cfg : config) (p : platform) (h : handle) :
  forall left Try e, In e (snd (open_retry cfg p h Try left)) ->
  match e with
  | Ev_Print _ _ | Ev_Stall _ => True
  | Ev_OpenVolumeProtocol h' _ _ => h' = h
  | _ => False
  end.
Proof.
  induction left as [|left IH]; intros Try e; simpl;
    destruct (EFI_ERROR (open_sfs p h Try)); simpl.
  - intros [<-|[<-|[]]]; auto.
  - intros [<-|[]]; auto.
  - specialize (IH (S Try) e). destruct (open_retry cfg p h (S Try) left) as [r t].
    simpl in IH |- *. intros [<-|[<-|[<-|[<-|H]]]]; [simpl; auto..|exact (IH H)].
  - intros [<-|[]]; auto.
Qed.

(** The attempt numbered [Try + left] is the last one: when it fails, the loop
    leaves with its status. *)
Lemma open_retry_last (cfg : config) (p : platform) (h : handle) :
  forall left Try h' st, In (Ev_OpenVolumeProtocol h' (Try + left) st) (snd (open_retry cfg p h Try left)) ->
  EFI_ERROR st = true -> fst (open_retry cfg p h Try left) = Out st.
Proof.
  induction left as [|left IH]; intros Try h' st Hin Herr; simpl in Hin |- *;
    destruct (EFI_ERROR (open_sfs p h Try)) eqn:E; simpl in Hin |- *.
  - rewrite Nat.add_0_r in Hin.
    destruct Hin as [Hin|[Hin|[]]]; [|discriminate]. inversion Hin; subst. reflexivity.
  - rewrite Nat.add_0_r in Hin.
    destruct Hin as [Hin|[]]. inversion Hin; subst. congruence.
  - specialize (IH (S Try) h' st). destruct (open_retry cfg p h (S Try) left) as [r t].
    simpl in IH, Hin |- *.
    destruct Hin as [Hin|[Hin|[Hin|[Hin|Hin]]]]; try discriminate.
    + inversion Hin. lia.
    + apply IH; [|exact Herr]. rewrite Nat.add_succ_r in Hin. exact Hin.
  - destruct Hin as [Hin|[]]. inversion Hin. lia.
Qed.

Lemma efi_main_run (cfg : config) (p : platform) (e : event) :
  In e (snd (efi_main cfg p)) ->
  (e = Ev_Print Warning "Press any key to exit." \/ e = Ev_WaitForKey) \/
  In e (snd (efi_main_body cfg p)).
Proof.
  unfold efi_main. destruct (efi_main_body cfg p) as [r t].
  destruct (EFI_ERROR (flow_status r)); simpl; [|auto].
  intros H. apply in_app_or in H. destruct H as [H|[H|[H|[]]]]; auto.
Qed.

Lemma efi_main_status (cfg : config) (p : platform) :
  fst (efi_main cfg p) = flow_status (fst (efi_main_body cfg p)).
Proof.
  unfold efi_main. destruct (efi_main_body cfg p) as [r t].
  destruct (EFI_ERROR (flow_status r)); reflexivity.
Qed.

Lemma body_start_loader (cfg : config) (p : platform) (st : status) :
  In (Ev_StartImage LoaderImage st) (snd (efi_main_body cfg p)) ->
  flow_status (fst (efi_main_body cfg p)) = st.
Proof.
  destruct (efi_main_body cfg p) as [r t] eqn:Hb. simpl. intros Hin.
  unfold efi_main_body, ensure_service, start_companion, chain_load, inspect_and_start,
    PrintInfo, PrintWarning, PrintError, emit, goto_out, ret, bind in Hb.
  run_cases Hb.
  all: close_run UnloadDriver_events open_retry_events.
  all: match goal with H : Ev_StartImage _ _ = Ev_StartImage _ _ |- _ => injection H as <- end;
       reflexivity.
Qed.

Lemma body_load_error (cfg : config) (p : platform) (k : image_kind) (st : status) :
  In (Ev_LoadImage k st) (snd (efi_main_body cfg p)) -> EFI_ERROR st = true ->
  flow_status (fst (efi_main_body cfg p)) = load_error_status (SecureBootStatus p) st.
Proof.
  destruct (efi_main_body cfg p) as [r t] eqn:Hb. simpl. intros Hin Herr.
  unfold efi_main_body, ensure_service, start_companion, chain_load, inspect_and_start,
    PrintInfo, PrintWarning, PrintError, emit, goto_out, ret, bind in Hb.
  run_cases Hb.
  all: close_run UnloadDriver_events open_retry_events.
  all: match goal with H : Ev_LoadImage _ _ = Ev_LoadImage _ _ |- _ => inversion H; subst end;
       first [reflexivity | congruence].
Qed.

Lemma body_open_last (cfg : config) (p : platform) (h' : handle) (st : status) :
  In (Ev_OpenVolumeProtocol h' (NUM_RETRIES cfg) st) (snd (efi_main_body cfg p)) ->
  EFI_ERROR st = true -> flow_status (fst (efi_main_body cfg p)) = st.
Proof.
  destruct (efi_main_body cfg p) as [r t] eqn:Hb. simpl. intros Hin Herr.
  unfold efi_main_body, ensure_service, start_companion, chain_load, inspect_and_start,
    PrintInfo, PrintWarning, PrintError, emit, goto_out, ret, bind in Hb.
  run_cases Hb.
  all: finish_pair.
  all: try match goal with
       | H : In (Ev_OpenVolumeProtocol _ _ _) ?l, E : open_retry ?cfg ?p ?h 0 ?N = (_, ?l) |- _ =>
           let X := fresh in
           pose proof (open_retry_last cfg p h N 0 h' st) as X; simpl in X;
           rewrite E in X; specialize (X H Herr); simpl in X;
           first [discriminate X | injection X as ->; reflexivity]
       end.
  all: loop_events UnloadDriver_events open_retry_events; try discriminate; try contradiction.
Qed.

(** ** Claims on status translation *)

(** C4 (as the code has it): when loading the companion driver or the
    next-stage image fails with AccessDenied, the run returns
    SecurityViolation if Secure Boot is Enabled (status >= 1), and
    AccessDenied otherwise, Setup mode (negative status) included. *)
Theorem C4_access_denied_remap (cfg : config) (p : platform) (k : image_kind) :
  In (Ev_LoadImage k EFI_ACCESS_DENIED) (snd (efi_main cfg p)) ->
  fst (efi_main cfg p) =
  (if 1 <=? SecureBootStatus p then EFI_SECURITY_VIOLATION else EFI_ACCESS_DENIED).
Proof.
  intros Hin. rewrite efi_main_status.
  apply efi_main_run in Hin as [[E|E]|Hin]; try discriminate.
  rewrite (body_load_error cfg p k EFI_ACCESS_DENIED Hin eq_refl).
  unfold load_error_status. rewrite Z.eqb_refl. reflexivity.
Qed.

Lemma C4_access_denied_remap_witness :
  fst (efi_main release_cfg enabled_platform) = EFI_SECURITY_VIOLATION.
Proof.
  rewrite (C4_access_denied_remap release_cfg enabled_platform DriverImage
             ltac:(vm_compute; tauto)).
  reflexivity.
Defined.

(** C4 fails in Setup mode: the driver load is refused with AccessDenied,
    Secure Boot is in Setup mode, and the run returns AccessDenied. *)
Lemma C4_setup_mode_not_remapped :
  (SecureBootStatus setup_mode_platform < 0) /\
  In (Ev_LoadImage DriverImage EFI_ACCESS_DENIED) (snd (efi_main release_cfg setup_mode_platform)) /\
  fst (efi_main release_cfg setup_mode_platform) = EFI_ACCESS_DENIED /\
  fst (efi_main release_cfg setup_mode_platform) <> EFI_SECURITY_VIOLATION.
Proof.
  vm_compute. split; [reflexivity|]. split; [tauto|]. split; [reflexivity|discriminate].
Qed.

(** C7 (as the code has it): when the last open attempt (number
    NUM_RETRIES) fails, the run returns that attempt's error status. *)
Theorem C7_retry_exhausted_status (cfg : config) (p : platform) (h : handle) (st : status) :
  In (Ev_OpenVolumeProtocol h (NUM_RETRIES cfg) st) (snd (efi_main cfg p)) ->
  EFI_ERROR st = true ->
  fst (efi_main cfg p) = st.
Proof.
  intros Hin Herr. rewrite efi_main_status.
  apply efi_main_run in Hin as [[E|E]|Hin]; try discriminate.
  exact (body_open_last cfg p h st Hin Herr).
Qed.

Lemma C7_retry_exhausted_status_witness :
  fst (efi_main release_cfg retry_exhausted_platform) = EFI_UNSUPPORTED.
Proof.
  apply (C7_retry_exhausted_status release_cfg retry_exhausted_platform 2%nat EFI_UNSUPPORTED).
  - vm_compute. tauto.
  - vm_compute. reflexivity.
Defined.

(** C7 fails: all three attempts answer Unsupported and the run returns
    Unsupported, not NotFound. *)
Lemma C7_exhausted_not_not_found :
  (forall j, (j <= NUM_RETRIES release_cfg)%nat ->
     EFI_ERROR (open_sfs retry_exhausted_platform 2%nat j) = true) /\
  In (Ev_OpenVolumeProtocol 2%nat 2%nat EFI_UNSUPPORTED)
     (snd (efi_main release_cfg retry_exhausted_platform)) /\
  fst (efi_main release_cfg retry_exhausted_platform) = EFI_UNSUPPORTED /\
  fst (efi_main release_cfg retry_exhausted_platform) <> EFI_NOT_FOUND.
Proof.
  split; [intros j _; vm_compute; reflexivity|].
  vm_compute. split; [tauto|]. split; [reflexivity|discriminate].
Qed.

(** C10: the run returns exactly the status of the next-stage image's
    [StartImage], the recognised-bootmgr NoMapping case included. *)
Theorem C10_start_status_returned (cfg : config) (p : platform) (st : status) :
  In (Ev_StartImage LoaderImage st) (snd (efi_main cfg p)) ->
  fst (efi_main cfg p) = st.
Proof.
  intros Hin. rewrite efi_main_status.
  apply efi_main_run in Hin as [[E|E]|Hin]; try discriminate.
  exact (body_start_loader cfg p st Hin).
Qed.

Lemma C10_start_status_returned_witness :
  fst (efi_main release_cfg bootmgr_platform) = EFI_NO_MAPPING.
Proof.
  apply (C10_start_status_returned release_cfg bootmgr_platform EFI_NO_MAPPING).
  vm_compute. tauto.
Defined.

(** ** The bootmgr scan *)

(** The scan from offset [k] finds the marker exactly when some offset
    [k + d] below the bound holds the 12 bytes of [BootMgrName]. *)
Lemma find_bootmgr_spec (mem : list byte) (k : nat) (bound : Z) :
  find_bootmgr mem (Z.of_nat k) bound = true <->
  exists d, (d < List.length mem)%nat /\ Z.of_nat (k + d) < bound /\
            firstn 12 (skipn d mem) = BootMgrName.
Proof.
  revert k. induction mem as [|b rest IH]; intros k.
  - simpl. split; [discriminate|]. intros (d & H & _). simpl in H. lia.
  - cbn [find_bootmgr]. destruct (Z.of_nat k <? bound) eqn:Hb.
    + apply Z.ltb_lt in Hb.
      destruct (bytes_eqb (firstn 12 (b :: rest)) BootMgrName) eqn:Hm.
      * split; [intros _|reflexivity].
        exists 0%nat. apply bytes_eqb_spec in Hm. simpl. split; [lia|]. split; [lia|exact Hm].
      * replace (Z.of_nat k + 1) with (Z.of_nat (S k)) by lia. rewrite IH. split.
        -- intros (d & H1 & H2 & H3). exists (S d). simpl.
           split; [lia|]. split; [lia|exact H3].
        -- intros (d & H1 & H2 & H3). destruct d as [|d].
           ++ apply bytes_eqb_spec in H3. simpl skipn in H3. congruence.
           ++ exists d. simpl in H1, H3. split; [lia|]. split; [lia|exact H3].
    + apply Z.ltb_ge in Hb. split; [discriminate|]. intros (d & _ & H2 & _). lia.
Qed.

(** The image is recognised exactly when the 12 bytes of [BootMgrName]
    start at some offset [i >= 0x40] with [i + 12 < ImageSize]. *)
Lemma is_windows_bootmgr_spec (Image : list byte) :
  Z.of_nat (List.length Image) < 2 ^ 64 ->
  is_windows_bootmgr Image = true <->
  exists i, (64 <= i)%nat /\ (i + 12 < List.length Image)%nat /\
            firstn 12 (skipn i Image) = BootMgrName.
Proof.
  intros Hlen. unfold is_windows_bootmgr, scan_bound.
  change 64 with (Z.of_nat 64). rewrite find_bootmgr_spec.
  rewrite length_skipn.
  destruct (Nat.lt_ge_cases (List.length Image) 12) as [Hs|Hs].
  - split.
    + intros (d & H1 & H2 & H3). lia.
    + intros (i & H1 & H2 & H3). lia.
  - rewrite Z.mod_small by lia. split.
    + intros (d & H1 & H2 & H3). exists (d + 64)%nat.
      rewrite skipn_skipn in H3. split; [lia|]. split; [lia|exact H3].
    + intros (i & H1 & H2 & H3). exists (i - 64)%nat.
      rewrite skipn_skipn, Nat.sub_add by exact H1.
      split; [lia|]. split; [lia|exact H3].
Qed.

Lemma bootmgr_marker_prefix (l : list byte) :
  firstn 12 l = BootMgrName ->
  firstn 11 l = list_ascii_of_string "bootmgr.dll".
Proof.
  intros H. replace 11%nat with (Nat.min 11 12) by reflexivity.
  rewrite <- firstn_firstn, H. reflexivity.
Qed.

(** C9 (as the code has it): when the next-stage image's loaded-image
    interface can be opened, its bytes hold the NUL-terminated marker
    "bootmgr.dll" at an offset [i >= 0x40] with [i + 12 < ImageSize], and
    [StartImage] answers NoMapping, the descriptive failure line is printed
    and the generic "Start failure" is not.  When [StartImage] fails and
    either the interface cannot be opened, or no "bootmgr.dll" occurs at
    any offset [>= 0x40], or the error is not NoMapping, the generic report
    is printed and the descriptive line is not. *)
Theorem C9_bootmgr_report (p : platform) (img : handle) :
  (EFI_ERROR (open_loader_loaded_image p img) = false ->
   forall i, (64 <= i)%nat -> (i + 12 < List.length (loader_image p img))%nat ->
   Z.of_nat (List.length (loader_image p img)) < 2 ^ 64 ->
   firstn 12 (skipn i (loader_image p img)) = BootMgrName ->
   start_loader_image p img = EFI_NO_MAPPING ->
   In (Ev_Print FailLine "   Windows bootmgr encountered a security validation or internal error")
      (snd (inspect_and_start p img)) /\
   ~ In (Ev_Print Error "  Start failure") (snd (inspect_and_start p img))) /\
  (EFI_ERROR (start_loader_image p img) = true ->
   (EFI_ERROR (open_loader_loaded_image p img) = true \/
    (forall i, (64 <= i)%nat ->
       firstn 11 (skipn i (loader_image p img)) <> list_ascii_of_string "bootmgr.dll") \/
    start_loader_image p img <> EFI_NO_MAPPING) ->
   In (Ev_Print Error "  Start failure") (snd (inspect_and_start p img)) /\
   ~ In (Ev_Print FailLine "   Windows bootmgr encountered a security validation or internal error")
        (snd (inspect_and_start p img))).
Proof.
  split.
  - intros Ho i Hi Hend Hlen Hm Hs.
    assert (Hw : is_windows_bootmgr (loader_image p img) = true)
      by (apply is_windows_bootmgr_spec; [exact Hlen | exists i; auto]).
    unfold inspect_and_start, PrintInfo, PrintWarning, PrintError, emit, ret, bind.
    rewrite Ho, Hw, Hs. simpl.
    split; [tauto|]. intros H. decompose [or] H; first [contradiction | discriminate].
  - intros He Hcase.
    assert (Hg : ((start_loader_image p img =? EFI_NO_MAPPING) &&
                  (negb (EFI_ERROR (open_loader_loaded_image p img)) &&
                   is_windows_bootmgr (loader_image p img)))%bool = false).
    { destruct Hcase as [Ho|[Hn|Hs]].
      - rewrite Ho. apply andb_false_r.
      - destruct (is_windows_bootmgr (loader_image p img)) eqn:Hw;
          [|rewrite !andb_false_r; reflexivity].
        exfalso. unfold is_windows_bootmgr in Hw.
        change (find_bootmgr (skipn 64 (loader_image p img)) (Z.of_nat 64)
                  (scan_bound (Z.of_nat (List.length (loader_image p img)))) = true) in Hw.
        apply find_bootmgr_spec in Hw as (d & _ & _ & Hd).
        rewrite skipn_skipn in Hd. apply bootmgr_marker_prefix in Hd.
        exact (Hn (d + 64)%nat ltac:(lia) Hd).
      - apply Z.eqb_neq in Hs. rewrite Hs. reflexivity. }
    unfold inspect_and_start, PrintInfo, PrintWarning, PrintError, emit, ret, bind.
    destruct (EFI_ERROR (open_loader_loaded_image p img)) eqn:Ho;
      [|destruct (is_windows_bootmgr (loader_image p img)) eqn:Hw];
      simpl in Hg |- *; rewrite He;
      try (rewrite Hg); try (rewrite andb_false_r); simpl;
      (split; [tauto|intros H; decompose [or] H; first [contradiction | discriminate]]).
Qed.

Lemma C9_bootmgr_report_witness :
  In (Ev_Print FailLine "   Windows bootmgr encountered a security validation or internal error")
     (snd (inspect_and_start bootmgr_platform 30%nat)) /\
  ~ In (Ev_Print Error "  Start failure") (snd (inspect_and_start bootmgr_platform 30%nat)).
Proof.
  apply (proj1 (C9_bootmgr_report bootmgr_platform 30%nat) eq_refl 64%nat);
    [lia | vm_compute; lia | vm_compute; reflexivity | vm_compute; reflexivity | reflexivity].
Defined.

(** The loaded-image interface of the next-stage image cannot be opened, so
    its bytes are never scanned: although they hold the marker at 0x40 and
    the start answers NoMapping, the run prints the generic report and not
    the descriptive one. *)
Lemma C9_uninspectable_bootmgr_generic :
  firstn 12 (skipn 64 bootmgr_image) = BootMgrName /\
  start_loader_image uninspectable_bootmgr_platform 30%nat = EFI_NO_MAPPING /\
  In (Ev_StartImage LoaderImage EFI_NO_MAPPING)
     (snd (efi_main release_cfg uninspectable_bootmgr_platform)) /\
  In (Ev_Print Error "  Start failure")
     (snd (efi_main release_cfg uninspectable_bootmgr_platform)) /\
  ~ In (Ev_Print FailLine "   Windows bootmgr encountered a security validation or internal error")
       (snd (efi_main release_cfg uninspectable_bootmgr_platform)).
Proof.
  split; [reflexivity|]. split; [reflexivity|].
  vm_compute. split; [tauto|]. split; [tauto|].
  intros H. decompose [or] H; first [contradiction | discriminate].
Qed.

(** ** The banner *)

Lemma UINTN_small (x : Z) : 0 <= x < 2 ^ 64 -> UINTN x = x.
Proof. intros H. unfold UINTN. apply Z.mod_small. exact H. Qed.

Lemma concat_repeat_single {A} (x : A) (n : nat) : List.concat (repeat [x] n) = repeat x n.
Proof. induction n as [|n IH]; simpl; [reflexivity|rewrite IH; reflexivity]. Qed.

(** The shape of a text line whose text leaves room for both borders. *)
Lemma banner_text_line_shape (B : Z) (s : list ascii) :
  Z.of_nat (List.length s) + 2 <= B -> B < 2 ^ 64 ->
  exists l r,
    banner_text_line B s =
      [Box BOXDRAW_VERTICAL] ++ repeat (Chr " ") l ++ map Chr s ++
      repeat (Chr " ") r ++ [Box BOXDRAW_VERTICAL; NL] /\
    Z.of_nat (l + List.length s + r + 2) = B /\ (r = l \/ r = S l).
Proof.
  intros Hs HB. unfold banner_text_line, for_print.
  set (Len := Z.of_nat (List.length s)) in *.
  rewrite (UINTN_small (B - Len)) by lia.
  pose proof (Z.div_mod (B - Len) 2 ltac:(lia)) as Hdm.
  pose proof (Z.mod_pos_bound (B - Len) 2 ltac:(lia)) as Hm.
  set (q := (B - Len) / 2) in *. set (m := (B - Len) mod 2) in *.
  rewrite (Z.max_r 1 q) by lia.
  rewrite (UINTN_small (q + Len)) by lia. rewrite (UINTN_small (B - 1)) by lia.
  rewrite !concat_repeat_single.
  exists (Z.to_nat (q - 1)), (Z.to_nat (B - 1 - (q + Len))).
  split; [reflexivity|]. split; [|destruct (Z.eq_dec m 0); [left|right]]; lia.
Qed.

Lemma screen_lines_nonempty (out : list cell) : screen_lines out <> [].
Proof.
  induction out as [|c rest IH]; simpl; [discriminate|].
  destruct c; [destruct (screen_lines rest)|destruct (screen_lines rest)|]; discriminate.
Qed.

Lemma screen_lines_line (l rest : list cell) :
  ~ In NL l -> screen_lines (l ++ NL :: rest) = l :: screen_lines rest.
Proof.
  induction l as [|c l IH]; intros Hl; [reflexivity|].
  simpl. rewrite IH by (intros H; apply Hl; right; exact H).
  destruct c; [reflexivity|reflexivity|exfalso; apply Hl; left; reflexivity].
Qed.

Lemma no_NL_repeat (c : cell) (n : nat) : c <> NL -> ~ In NL (repeat c n).
Proof. intros Hc H. apply repeat_spec in H. congruence. Qed.

Lemma no_NL_map (s : list ascii) : ~ In NL (map Chr s).
Proof. intros H. apply in_map_iff in H as (x & Hx & _). discriminate. Qed.

Ltac no_NL :=
  let H := fresh in
  intros H; do 3 (simpl in H; rewrite ?in_app_iff in H);
  repeat match type of H with
  | _ \/ _ => destruct H as [H|H]
  end;
  first [ discriminate
        | contradiction
        | exact (no_NL_map _ H)
        | eapply no_NL_repeat; [|exact H]; discriminate ].

(** X1: every text line is exactly BANNER_LINE_SIZE columns wide, its text
    centred with the left margin equal to the right one or one narrower. *)
Theorem banner_text_line_centered (B : Z) (s : list ascii) :
  Z.of_nat (List.length s) + 2 <= B -> B < 2 ^ 64 ->
  exists l r,
    banner_text_line B s =
      [Box BOXDRAW_VERTICAL] ++ repeat (Chr " ") l ++ map Chr s ++
      repeat (Chr " ") r ++ [Box BOXDRAW_VERTICAL; NL] /\
    Z.of_nat (l + List.length s + r + 2) = B /\ (r = l \/ r = S l).
Proof. exact (banner_text_line_shape B s). Qed.

Lemma banner_text_line_centered_witness :
  exists l r,
    banner_text_line 79 (list_ascii_of_string "<https://un.akeo.ie>") =
      [Box BOXDRAW_VERTICAL] ++ repeat (Chr " ") l ++
      map Chr (list_ascii_of_string "<https://un.akeo.ie>") ++
      repeat (Chr " ") r ++ [Box BOXDRAW_VERTICAL; NL] /\
    Z.of_nat (l + List.length (list_ascii_of_string "<https://un.akeo.ie>") + r + 2) = 79 /\
    (r = l \/ r = S l).
Proof.
  apply (banner_text_line_centered 79 (list_ascii_of_string "<https://un.akeo.ie>"));
    vm_compute; congruence.
Defined.

(** X2: a text of BANNER_LINE_SIZE - 1 characters, which the [V_ASSERT]
    admits, gets no margin at all, and its line is BANNER_LINE_SIZE + 1
    columns wide: one more than the borders. *)
Theorem banner_text_line_overflow (B : Z) (s : list ascii) :
  Z.of_nat (List.length s) = B - 1 -> 1 <= B -> B < 2 ^ 64 ->
  banner_text_line B s = [Box BOXDRAW_VERTICAL] ++ map Chr s ++ [Box BOXDRAW_VERTICAL; NL] /\
  List.length (banner_text_line B s) = (Z.to_nat B + 2)%nat.
Proof.
  intros Hs H1 HB.
  assert (E : banner_text_line B s =
              [Box BOXDRAW_VERTICAL] ++ map Chr s ++ [Box BOXDRAW_VERTICAL; NL]).
  { unfold banner_text_line, for_print. rewrite Hs.
    replace (B - (B - 1)) with 1 by lia.
    rewrite (UINTN_small 1) by lia. change (1 / 2) with 0.
    rewrite (Z.max_l 1 0) by lia.
    rewrite (UINTN_small (1 + (B - 1))) by lia. rewrite (UINTN_small (B - 1)) by lia.
    replace (0 - 1) with (-1) by lia. replace (B - 1 - (1 + (B - 1))) with (-1) by lia.
    reflexivity. }
  split; [exact E|]. rewrite E. rewrite !length_app, length_map. simpl. lia.
Qed.

Lemma banner_text_line_overflow_witness :
  banner_text_line 10 (list_ascii_of_string "123456789") =
    [Box BOXDRAW_VERTICAL] ++ map Chr (list_ascii_of_string "123456789") ++
    [Box BOXDRAW_VERTICAL; NL] /\
  List.length (banner_text_line 10 (list_ascii_of_string "123456789")) = (Z.to_nat 10 + 2)%nat.
Proof.
  apply (banner_text_line_overflow 10 (list_ascii_of_string "123456789")); vm_compute; congruence.
Defined.

(** X3: with both texts leaving room for the borders, the banner's screen
    lines are: an empty line, the top border, the two text lines, the bottom
    border, then two empty lines.  The top border and the text lines are
    BANNER_LINE_SIZE columns wide, the bottom border always 79 (its 77 is
    hard-coded), so the box is square exactly when BANNER_LINE_SIZE is 79. *)
Theorem DisplayBanner_lines (B : Z) (Title Url : list ascii) :
  Z.of_nat (List.length Title) + 2 <= B -> Z.of_nat (List.length Url) + 2 <= B -> B < 2 ^ 64 ->
  map (@List.length cell) (screen_lines (DisplayBanner B Title Url)) =
    [0; Z.to_nat B; Z.to_nat B; Z.to_nat B; 79; 0; 0]%nat.
Proof.
  intros Ht Hu HB.
  destruct (banner_text_line_shape B Title Ht HB) as (l1 & r1 & E1 & W1 & _).
  destruct (banner_text_line_shape B Url Hu HB) as (l2 & r2 & E2 & W2 & _).
  assert (E : DisplayBanner B Title Url =
    [] ++ NL ::
    (Box BOXDRAW_DOWN_RIGHT :: repeat (Box BOXDRAW_HORIZONTAL) (Z.to_nat (B - 2)) ++
     [Box BOXDRAW_DOWN_LEFT]) ++ NL ::
    (Box BOXDRAW_VERTICAL :: repeat (Chr " ") l1 ++ map Chr Title ++
     repeat (Chr " ") r1 ++ [Box BOXDRAW_VERTICAL]) ++ NL ::
    (Box BOXDRAW_VERTICAL :: repeat (Chr " ") l2 ++ map Chr Url ++
     repeat (Chr " ") r2 ++ [Box BOXDRAW_VERTICAL]) ++ NL ::
    (Box BOXDRAW_UP_RIGHT :: repeat (Box BOXDRAW_HORIZONTAL) 77 ++ [Box BOXDRAW_UP_LEFT]) ++ NL ::
    [] ++ NL :: []).
  { unfold DisplayBanner. rewrite E1, E2. unfold for_print. cbn [fst].
    rewrite (UINTN_small (B - 2)) by lia. rewrite !concat_repeat_single.
    change (Z.to_nat (77 - 0)) with 77%nat. rewrite Z.sub_0_r.
    simpl. rewrite <- ?app_assoc. simpl. rewrite <- ?app_assoc. reflexivity. }
  rewrite E. rewrite !screen_lines_line by no_NL.
  simpl. rewrite ?length_app, ?repeat_length, ?length_map. simpl.
  repeat f_equal; lia.
Qed.

Lemma DisplayBanner_lines_witness :
  map (@List.length cell) (screen_lines (DisplayBanner 79
      (list_ascii_of_string "UEFI:NTFS 2.5 (x64)") (list_ascii_of_string "<https://un.akeo.ie>"))) =
    [0; Z.to_nat 79; Z.to_nat 79; Z.to_nat 79; 79; 0; 0]%nat.
Proof.
  apply DisplayBanner_lines; vm_compute; congruence.
Defined.

(** ** The Secure Boot line and the load-failure translation *)

(** X4: the AccessDenied-to-SecurityViolation translation of a failed load
    applies exactly when the Secure Boot line reads "Enabled" (not for
    "Setup" nor "Disabled"), and no other status is ever translated. *)
Theorem access_denied_remap_iff_enabled (SecureBootStatus : Z) :
  (load_error_status SecureBootStatus EFI_ACCESS_DENIED = EFI_SECURITY_VIOLATION <->
   snd (secure_boot_banner SecureBootStatus) = "Enabled"%string) /\
  (forall st, st <> EFI_ACCESS_DENIED -> load_error_status SecureBootStatus st = st).
Proof.
  unfold load_error_status, secure_boot_banner. split.
  - rewrite Z.eqb_refl. simpl.
    destruct (Z.eqb_spec SecureBootStatus 0) as [E|E];
      [subst; simpl; split; discriminate|].
    destruct (Z.ltb_spec 0 SecureBootStatus); destruct (Z.leb_spec 1 SecureBootStatus);
      simpl; try lia; split; first [reflexivity | discriminate].
  - intros st Hst. apply Z.eqb_neq in Hst. rewrite Hst. reflexivity.
Qed.

(** ** [UnloadDriver] *)

Lemma unload_openers_result (p : platform) (OpenInfo : list handle) :
  (fst (unload_openers p OpenInfo) = Next EFI_SUCCESS \/
   fst (unload_openers p OpenInfo) = Next EFI_NOT_FOUND) /\
  (fst (unload_openers p OpenInfo) = Next EFI_SUCCESS <->
   exists img st, In (Ev_UnloadImage img st) (snd (unload_openers p OpenInfo)) /\
                  EFI_ERROR st = false).
Proof.
  induction OpenInfo as [|agent rest IH]; simpl.
  - split; [right; reflexivity|]. split; [discriminate|intros (? & ? & [] & _)].
  - destruct (open_driver_binding p agent) as [st img]. destruct (EFI_ERROR st); [exact IH|].
    simpl. destruct (EFI_ERROR (unload_image p img)) eqn:E.
    + destruct (unload_openers p rest) as [r t] eqn:R. simpl in IH |- *.
      destruct IH as [IH1 IH2]. split; [exact IH1|]. rewrite IH2. split.
      * intros (i & s & Hin & Hs). exists i, s. auto.
      * intros (i & s & Hin & Hs). exists i, s. split; [|exact Hs].
        destruct Hin as [Hin|[Hin|[Hin|Hin]]]; try discriminate; [|exact Hin].
        inversion Hin; subst. congruence.
    + simpl. split; [left; reflexivity|]. split; [|reflexivity].
      intros _. exists img, (unload_image p img). auto.
Qed.

(** X5: [UnloadDriver] only ever returns EFI_SUCCESS or EFI_NOT_FOUND, and
    it returns EFI_SUCCESS exactly when one of its [UnloadImage] calls
    answered a non-error status (a warning counts as a success). *)
Theorem UnloadDriver_result (p : platform) (h : handle) :
  (fst (UnloadDriver p h) = Next EFI_SUCCESS \/ fst (UnloadDriver p h) = Next EFI_NOT_FOUND) /\
  (fst (UnloadDriver p h) = Next EFI_SUCCESS <->
   exists img st, In (Ev_UnloadImage img st) (snd (UnloadDriver p h)) /\ EFI_ERROR st = false).
Proof.
  unfold UnloadDriver. destruct (open_protocol_information p h) as [st OpenInfo].
  destruct (EFI_ERROR st); [|apply unload_openers_result].
  simpl. split; [right; reflexivity|]. split; [discriminate|intros (? & ? & [] & _)].
Qed.

(** ** [DisconnectBlockingDrivers] *)

Lemma disconnect_openers_spec (d : dbd_platform) (h : handle) (path : string) (c a : handle) :
  forall OpenInfo k,
  (exists st, In (D_Disconnect c a st) (disconnect_openers d h path OpenInfo k)) <->
  c = h /\ exists Attributes, In (Attributes, a) OpenInfo /\ opened_by_driver Attributes = true.
Proof.
  induction OpenInfo as [|[attr agent] rest IH]; intros k; simpl.
  - split; [intros (st & [])|intros (_ & attr & [] & _)].
  - split.
    + intros (st & Hin). apply in_app_or in Hin as [Hin|Hin].
      * destruct (opened_by_driver attr) eqn:Ea; [|destruct Hin].
        destruct Hin as [Hin|[Hin|[]]];
          [|destruct (EFI_ERROR (dbd_disconnect d h k)); discriminate].
        inversion Hin; subst. split; [reflexivity|]. exists attr. auto.
      * assert (Hr : exists st, In (D_Disconnect c a st) (disconnect_openers d h path rest (S k)))
          by (exists st; exact Hin).
        apply (IH (S k)) in Hr as [Hc (at' & Hat & Hb)]. split; [exact Hc|]. exists at'. auto.
    + intros [Hc (at' & [Hat|Hat] & Hb)].
      * inversion Hat; subst. rewrite Hb.
        exists (dbd_disconnect d h k). apply in_or_app. left. left. reflexivity.
      * assert (Hr : c = h /\ exists Attributes, In (Attributes, a) rest /\
                       opened_by_driver Attributes = true) by (split; [exact Hc|exists at'; auto]).
        apply (IH (S k)) in Hr as (st & Hin). exists st. apply in_or_app. right. exact Hin.
Qed.

Lemma disconnect_handles_cons (d : dbd_platform) (h : handle) (rest : list handle) (c a : handle) :
  (exists st, In (D_Disconnect c a st) (disconnect_handles d (h :: rest))) <->
  (c = h /\ dbd_blocking d c a) \/
  (exists st, In (D_Disconnect c a st) (disconnect_handles d rest)).
Proof.
  unfold dbd_blocking. cbn [disconnect_handles].
  destruct (dbd_block_io d h) as [st Media] eqn:Eb.
  assert (Hskip : forall P : Prop, ~ (c = h /\ P) ->
                  (exists st, In (D_Disconnect c a st) (disconnect_handles d rest)) <->
                  (c = h /\ P) \/ (exists st, In (D_Disconnect c a st) (disconnect_handles d rest)))
    by (intros P HP; split; [auto|intros [H|H]; [contradiction|exact H]]).
  destruct (EFI_ERROR st) eqn:Es.
  { apply Hskip. intros [-> [Hc _]]. rewrite Eb in Hc. simpl in Hc. congruence. }
  destruct Media as [[|]|];
    [|apply Hskip; intros [-> [_ [Hc _]]]; rewrite Eb in Hc; simpl in Hc; congruence
     |apply Hskip; intros [-> [_ [Hc _]]]; rewrite Eb in Hc; simpl in Hc; congruence].
  destruct (Z.eqb_spec (dbd_sfs d h) EFI_SUCCESS) as [Hs|Hs].
  { apply Hskip. intros [-> [_ [_ [Hc _]]]]. contradiction. }
  destruct (dbd_open_info d h) as [st2 OpenInfo] eqn:Eo.
  destruct (EFI_ERROR st2) eqn:Es2.
  - split.
    + intros (s & [Hin|Hin]); [discriminate|right; exists s; exact Hin].
    + intros [[-> [_ [_ [_ [Hc _]]]]]|(s & Hin)].
      * rewrite Eo in Hc. simpl in Hc. congruence.
      * exists s. right. exact Hin.
  - split.
    + intros (s & Hin). apply in_app_or in Hin as [Hin|Hin].
      * left. assert (Hr : exists st, In (D_Disconnect c a st)
                        (disconnect_openers d h (dbd_path_string d h) OpenInfo 0))
          by (exists s; exact Hin).
        apply disconnect_openers_spec in Hr as [-> Hr]. rewrite Eb, Eo. simpl.
        split; [reflexivity|]. split; [exact Es|]. split; [reflexivity|].
        split; [exact Hs|]. split; [exact Es2|exact Hr].
      * right. exists s. exact Hin.
    + intros [[-> [_ [_ [_ [_ Hr]]]]]|(s & Hin)].
      * rewrite Eo in Hr. simpl in Hr.
        assert (Hr' : h = h /\ exists Attributes, In (Attributes, a) OpenInfo /\
                        opened_by_driver Attributes = true) by (split; [reflexivity|exact Hr]).
        apply (disconnect_openers_spec d h (dbd_path_string d h) h a OpenInfo 0) in Hr'
          as (s & Hin). exists s. apply in_or_app. left. exact Hin.
      * exists s. apply in_or_app. right. exact Hin.
Qed.

(** X6: [DisconnectBlockingDrivers] disconnects agent [a] from DiskIo handle
    [c] exactly when the handle enumeration succeeds and lists [c], [c]'s
    BlockIo opens with a media that is a logical partition, [c] has no file
    system (the SimpleFileSystem open does not answer EFI_SUCCESS), [c]'s
    DiskIo open information is readable, and one of its entries is [a] with
    the BY_DRIVER bit set in its attributes (BY_DRIVER|EXCLUSIVE included).
    A failed disconnection does not stop the scan. *)
Theorem DisconnectBlockingDrivers_exact (d : dbd_platform) (c a : handle) :
  (exists st, In (D_Disconnect c a st) (DisconnectBlockingDrivers d)) <->
  EFI_ERROR (fst (dbd_locate d)) = false /\ In c (snd (dbd_locate d)) /\
  EFI_ERROR (fst (dbd_block_io d c)) = false /\ snd (dbd_block_io d c) = Some true /\
  dbd_sfs d c <> EFI_SUCCESS /\ EFI_ERROR (fst (dbd_open_info d c)) = false /\
  exists Attributes, In (Attributes, a) (snd (dbd_open_info d c)) /\
                     opened_by_driver Attributes = true.
Proof.
  assert (Hh : forall Handles,
    (exists st, In (D_Disconnect c a st) (disconnect_handles d Handles)) <->
    In c Handles /\ dbd_blocking d c a).
  { induction Handles as [|h rest IH].
    - simpl. split; [intros (st & [])|intros [[] _]].
    - rewrite disconnect_handles_cons, IH. simpl. split.
      + intros [[-> Hb]|[Hin Hb]]; auto.
      + intros [[->|Hin] Hb]; auto. }
  unfold DisconnectBlockingDrivers. destruct (dbd_locate d) as [st Handles]. simpl.
  destruct (EFI_ERROR st) eqn:Es; simpl.
  - split; [intros (s & [])|intros [H _]; discriminate].
  - destruct (Nat.eqb_spec (List.length Handles) 0) as [E|E].
    + apply length_zero_iff_nil in E. subst. simpl.
      split; [intros (s & [])|intros (_ & [] & _)].
    + rewrite Hh. unfold dbd_blocking. tauto.
Qed.

(** ** More on the run *)

Lemma load_error_status_error (sb st : Z) :
  EFI_ERROR st = true -> EFI_ERROR (load_error_status sb st) = true.
Proof.
  intros H. unfold load_error_status.
  destruct ((st =? EFI_ACCESS_DENIED) && (1 <=? sb)); [reflexivity|exact H].
Qed.

Lemma UnloadDriver_never_out (p : platform) (h : handle) (s : status) :
  fst (UnloadDriver p h) <> Out s.
Proof.
  unfold UnloadDriver. destruct (open_protocol_information p h) as [st OpenInfo].
  destruct (EFI_ERROR st); [discriminate|].
  destruct (proj1 (unload_openers_result p OpenInfo)) as [E|E]; rewrite E; discriminate.
Qed.

Ltac in_trace := repeat progress (simpl; rewrite ?in_app_iff); tauto.

Lemma open_retry_out_error (cfg : config) (p : platform) (h : handle) :
  forall left Try s, fst (open_retry cfg p h Try left) = Out s -> EFI_ERROR s = true.
Proof.
  induction left as [|left IH]; intros Try s; simpl;
    destruct (EFI_ERROR (open_sfs p h Try)) eqn:E; simpl; try discriminate.
  - intros H. inversion H; subst. exact E.
  - specialize (IH (S Try) s). destruct (open_retry cfg p h (S Try) left) as [r t].
    simpl in IH |- *. destruct r; [discriminate|exact IH].
Qed.

Lemma body_no_wait (cfg : config) (p : platform) :
  ~ In Ev_WaitForKey (snd (efi_main_body cfg p)).
Proof.
  destruct (efi_main_body cfg p) as [r t] eqn:Hb. simpl. intros Hin.
  unfold efi_main_body, ensure_service, start_companion, chain_load, inspect_and_start,
    PrintInfo, PrintWarning, PrintError, emit, goto_out, ret, bind in Hb.
  run_cases Hb.
  all: close_run UnloadDriver_events open_retry_events.
Qed.

(** X7: the run waits for a keystroke (after "Press any key to exit.")
    exactly when the status it returns is an error status. *)
Theorem efi_main_waits_iff_error (cfg : config) (p : platform) :
  In Ev_WaitForKey (snd (efi_main cfg p)) <-> EFI_ERROR (fst (efi_main cfg p)) = true.
Proof.
  pose proof (body_no_wait cfg p) as Hno. unfold efi_main.
  destruct (efi_main_body cfg p) as [r t]. simpl in Hno.
  destruct (EFI_ERROR (flow_status r)) eqn:E; simpl.
  - split; [intros _; exact E|intros _; apply in_or_app; right; right; left; reflexivity].
  - split; [intros Hin; contradiction|intros H; congruence].
Qed.

Lemma body_success_exits (cfg : config) (p : platform) :
  EFI_ERROR (flow_status (fst (efi_main_body cfg p))) = false ->
  In (Ev_StartImage LoaderImage (flow_status (fst (efi_main_body cfg p))))
     (snd (efi_main_body cfg p)) \/
  In (Ev_Print Error "  Could not open Root directory") (snd (efi_main_body cfg p)) \/
  In (Ev_Print Error "Could not check for %s service") (snd (efi_main_body cfg p)).
Proof.
  destruct (efi_main_body cfg p) as [r t] eqn:Hb. simpl. intros He.
  unfold efi_main_body, ensure_service, start_companion, chain_load, inspect_and_start,
    PrintInfo, PrintWarning, PrintError, emit, goto_out, ret, bind in Hb.
  run_cases Hb.
  all: finish_pair; simpl in He |- *.
  all: first
    [ congruence
    | exfalso; vm_compute in He; discriminate
    | exfalso; rewrite load_error_status_error in He; [discriminate|assumption]
    | exfalso; match goal with
      | E : open_retry ?c ?p ?h ?T ?L = (Out ?s, _) |- _ =>
          pose proof (open_retry_out_error c p h L T s) as X; rewrite E in X;
          specialize (X eq_refl); congruence
      end
    | exfalso; match goal with
      | E : UnloadDriver ?p ?h = (Out ?s, _) |- _ =>
          apply (UnloadDriver_never_out p h s); rewrite E; reflexivity
      end
    | in_trace ].
Qed.

(** X8: a run that returns a non-error status either started the
    next-stage image, which answered that status, or left through one of
    two other exits: [OpenVolume] answered a non-error status with a NULL
    root ("Could not open Root directory"), or the file system test of the
    target answered a warning ("Could not check for %s service"). *)
Theorem efi_main_success_exits (cfg : config) (p : platform) :
  EFI_ERROR (fst (efi_main cfg p)) = false ->
  In (Ev_StartImage LoaderImage (fst (efi_main cfg p))) (snd (efi_main cfg p)) \/
  In (Ev_Print Error "  Could not open Root directory") (snd (efi_main cfg p)) \/
  In (Ev_Print Error "Could not check for %s service") (snd (efi_main cfg p)).
Proof.
  pose proof (body_success_exits cfg p) as Hb. unfold efi_main.
  destruct (efi_main_body cfg p) as [r t]. simpl in Hb |- *.
  destruct (EFI_ERROR (flow_status r)) eqn:E; simpl; [intros H; congruence|].
  intros _. exact (Hb eq_refl).
Qed.

Lemma efi_main_success_exits_witness :
  EFI_ERROR (fst (efi_main release_cfg null_root_platform)) = false /\
  (In (Ev_StartImage LoaderImage (fst (efi_main release_cfg null_root_platform)))
      (snd (efi_main release_cfg null_root_platform)) \/
   In (Ev_Print Error "  Could not open Root directory") (snd (efi_main release_cfg null_root_platform)) \/
   In (Ev_Print Error "Could not check for %s service") (snd (efi_main release_cfg null_root_platform))).
Proof.
  split; [vm_compute; reflexivity|].
  apply efi_main_success_exits. vm_compute. reflexivity.
Defined.




(** X10: when the file system test of the target answers anything but
    EFI_SUCCESS or EFI_UNSUPPORTED (an error or a warning), the run returns
    that status unchanged, and its trace holds console output only: no
    image is unloaded, loaded or started and no volume is opened. *)
Theorem efi_main_check_status (cfg : config) (p : platform) (i : nat) (h : handle) (k : nat) :
  EFI_ERROR (open_main_loaded_image p) = false ->
  EFI_ERROR (fst (locate_disk_io p)) = false ->
  find_target cfg p (device_path p (boot_device_handle p))
    (GetParentDevice (device_path p (boot_device_handle p))) (snd (locate_disk_io p)) 0 =
    Some (i, h, k) ->
  test_sfs p h <> EFI_SUCCESS -> test_sfs p h <> EFI_UNSUPPORTED ->
  fst (efi_main cfg p) = test_sfs p h /\
  (forall e, In e (snd (efi_main cfg p)) ->
     match e with Ev_Print _ _ | Ev_WaitForKey => True | _ => False end).
Proof.
  intros Hm Hl Ht Hs Hu.
  unfold efi_main, efi_main_body.
  rewrite Hm. destruct (locate_disk_io p) as [st0 hs]. simpl in Hl, Ht. rewrite Hl, Ht.
  unfold ensure_service.
  apply Z.eqb_neq in Hs. apply Z.eqb_neq in Hu. rewrite Hs, Hu.
  cbn -[EFI_ERROR].
  destruct (EFI_ERROR (test_sfs p h)); simpl; (split; [reflexivity|]);
    intros e Hin; decompose [or] Hin; subst; first [exact I | contradiction].
Qed.

Lemma efi_main_check_status_witness :
  fst (efi_main release_cfg warning_test_platform) = test_sfs warning_test_platform 2%nat /\
  (forall e, In e (snd (efi_main release_cfg warning_test_platform)) ->
     match e with Ev_Print _ _ | Ev_WaitForKey => True | _ => False end).
Proof.
  apply (efi_main_check_status release_cfg warning_test_platform 1%nat 2%nat 0%nat);
    vm_compute; first [reflexivity | discriminate].
Defined.

(** ** The volume label query *)

Lemma volume_label_lines (FILE_INFO_SIZE : Z) (lp : label_platform) :
  fst (volume_label FILE_INFO_SIZE lp) = Next tt /\
  forall e, In e (snd (volume_label FILE_INFO_SIZE lp)) -> label_line e = true.
Proof.
  unfold volume_label. destruct (label_alloc lp); simpl; [|split; [reflexivity|intros e []]].
  destruct (label_get_info lp 0 FILE_INFO_SIZE) as [st sz].
  destruct ((st =? EFI_BUFFER_TOO_SMALL) && (sz <=? FILE_INFO_SIZE));
    [destruct (fst (label_get_info lp 1 sz) =? EFI_SUCCESS)|destruct (st =? EFI_SUCCESS)];
    simpl; (split; [reflexivity|]); intros e [<-|[]]; reflexivity.
Qed.

Lemma chain_load_no_label (p : platform) (h : handle) (e : event) :
  In e (snd (chain_load p h)) -> label_line e = false.
Proof.
  destruct (chain_load p h) as [r t] eqn:Hb. simpl. intros Hin.
  unfold chain_load, inspect_and_start, PrintInfo, PrintWarning, PrintError,
    emit, goto_out, ret, bind in Hb.
  run_cases Hb.
  all: finish_pair.
  all: subst; reflexivity.
Qed.

Lemma filter_all_true {A} (f : A -> bool) (l : list A) :
  (forall x, In x l -> f x = true) -> filter f l = l.
Proof.
  induction l as [|x l IH]; intros H; simpl; [reflexivity|].
  rewrite (H x (or_introl eq_refl)), IH; [reflexivity|intros y Hy; apply H; right; exact Hy].
Qed.

Lemma filter_all_false {A} (f : A -> bool) (l : list A) :
  (forall x, In x l -> f x = false) -> filter f l = [].
Proof.
  induction l as [|x l IH]; intros H; simpl; [reflexivity|].
  rewrite (H x (or_introl eq_refl)), IH; [reflexivity|intros y Hy; apply H; right; exact Hy].
Qed.

(** X11: the volume label query never changes the outcome of chain-loading:
    whatever [AllocateZeroPool] and [GetInfo] answer, the run continues
    with the same status and the same firmware calls, its only trace being
    the label line (or the warning) and the architecture line. *)
Theorem chain_load_full_label (FILE_INFO_SIZE : Z) (lp : label_platform) (p : platform) (h : handle) :
  fst (chain_load_full FILE_INFO_SIZE lp p h) = fst (chain_load p h) /\
  filter (fun e => negb (label_line e)) (snd (chain_load_full FILE_INFO_SIZE lp p h)) =
    snd (chain_load p h).
Proof.
  pose proof (chain_load_no_label p h) as Hno.
  destruct (volume_label_lines FILE_INFO_SIZE lp) as [Vf Vl].
  unfold chain_load_full. unfold chain_load in Hno |- *.
  destruct (open_volume p h) as [st ok].
  destruct (EFI_ERROR st || negb ok).
  - simpl. split; reflexivity.
  - match goal with
    | |- context [bind (volume_label _ _) (fun _ => bind (PrintInfo _) (fun _ => ?R))] =>
        set (rest := R) in *
    end.
    clearbody rest. simpl in Hno |- *.
    destruct (volume_label FILE_INFO_SIZE lp) as [vf vt]. simpl in Vf, Vl. subst vf.
    destruct rest as [rr rt]. simpl in Hno |- *.
    split; [reflexivity|].
    rewrite filter_app. rewrite (filter_all_false _ vt) by (intros x Hx; rewrite (Vl x Hx); reflexivity).
    simpl. apply filter_all_true. intros x Hx. rewrite (Hno x Hx). reflexivity.
Qed.

(** ** The bootmgr scan *)

(** X12: the next-stage image is recognised as Windows bootmgr exactly when
    "bootmgr.dll" with its terminating NUL (12 bytes) starts at an offset
    [i >= 0x40] with [i + 12 < ImageSize]; a marker whose NUL is the image's
    last byte is not found. *)
Theorem is_windows_bootmgr_exact (Image : list byte) :
  Z.of_nat (List.length Image) < 2 ^ 64 ->
  is_windows_bootmgr Image = true <->
  exists i, (64 <= i)%nat /\ (i + 12 < List.length Image)%nat /\
            firstn 12 (skipn i Image) = BootMgrName.
Proof. exact (is_windows_bootmgr_spec Image). Qed.

Lemma is_windows_bootmgr_exact_witness :
  is_windows_bootmgr bootmgr_image = true <->
  exists i, (64 <= i)%nat /\ (i + 12 < List.length bootmgr_image)%nat /\
            firstn 12 (skipn i bootmgr_image) = BootMgrName.
Proof.
  apply is_windows_bootmgr_exact. vm_compute. reflexivity.
Defined.
